(** * SprintIR-R20 CO2 sensor driver

    A shallow embedding of [arguments_values_helpers.py] and of the
    [sprintIRR20] class of [sprintIRR20.py], and the properties of the
    driver's protocol engine, command encoding and measurement pipeline.

    Conventions of the embedding.
    - Python [int] is [Z].  Python [float] is modelled by the exact rational
      it denotes ([Q]): [/] is exact division, [int(x)] truncates toward
      zero, ["{:.2f}".format] rounds half-to-even at two decimals.  Module
      [Binary64] replays the float computations the theorems rely on with
      IEEE binary64 arithmetic, on concrete inputs and over ranges of them.
    - A value handed in by a caller is a [pyval]: [None], an [int] or a
      [float].
    - [bytes] and [str] are both [string], a [str] being kept as its UTF-8
      bytes; [decode()] checks that the bytes are well-formed UTF-8.
    - An exception is an [outcome]; a method of the class is a function from
      the session to an outcome and the session it leaves behind.
    - [print] calls only write diagnostics and are left out; the [verbose]
      flags are off, as they are by default. *)

From Stdlib Require Import ZArith QArith Qround Qpower String Ascii List Bool Lia.
From Stdlib Require Import Floats.
Import ListNotations.

Set Warnings "-inexact-float".

Open Scope Z_scope.

(** ** Python values, exceptions and outcomes *)

Inductive pyval : Type :=
| VNone
| VInt (z : Z)
| VFloat (q : Q).

Inductive exn : Type :=
| SprintIRR20_timeout
| SprintIRR20_unexpected_reply
| SprintIRR20_connection_lost
| TypeError
| ValueError
| ZeroDivisionError
| UnboundLocalError
| UnicodeDecodeError.

(** [OutOfFuel] is not a Python outcome: it marks a run of the unbounded
    [while True] wait that the model stopped exploring. *)
Inductive outcome (A : Type) : Type :=
| Ok (a : A)
| Raise (e : exn)
| OutOfFuel.

Arguments Ok {A} a.
Arguments Raise {A} e.
Arguments OutOfFuel {A}.

(** ** Rational model of float operations *)

Definition Qgtb (a b : Q) : bool := negb (Qle_bool a b).

(** [int(x)] on a float: truncation toward zero. *)
Definition int_of_float (q : Q) : Z := Z.quot (Qnum q) (Z.pos (Qden q)).

(** [a / b] on floats; Python raises on a zero divisor. *)
Definition float_div (a b : Q) : outcome Q :=
  if Qeq_bool b 0 then Raise ZeroDivisionError else Ok (a / b)%Q.

(** [a // b] for a positive constant divisor, on a float: the floor of the
    exact quotient, which is what binary64 gives below [2^53]. *)
Definition float_floordiv (a b : Q) : Q := inject_Z (Qfloor (a / b)).

(** Nearest integer, ties to the even one. *)
Definition round_half_even (q : Q) : Z :=
  let n := Qfloor q in
  let twice := (2 * (q - inject_Z n))%Q in
  if Qgtb twice 1 then n + 1
  else if Qeq_bool twice 1 then (if Z.even n then n else n + 1)
  else n.

(** [float("{:.2f}".format(x))], on the exact quotient.  The code formats
    the binary64 quotient, which is never exactly half way between two
    hundredths: where the exact quotient is, the two can differ by one
    hundredth.  The comparison with [1.0] is not affected
    ([Binary64.percentage_above_one]). *)
Definition format_2f (q : Q) : Q := (inject_Z (round_half_even (q * 100)) / 100)%Q.

(** [math.pow] with an integer exponent. *)
Definition math_pow (b : Q) (e : Z) : Q := Qpower b e.

(** ** Strings: [str(int)], [int(str)], slices *)

Definition CRLF : string := String "013"%char (String "010"%char EmptyString).

Definition digit_char (d : Z) : ascii := ascii_of_nat (48 + Z.to_nat d).

(** Decimal digits of a non-negative integer, most significant first, pushed
    in front of [acc]. *)
Fixpoint digits_of (fuel : nat) (n : Z) (acc : string) : string :=
  let acc' := String (digit_char (n mod 10)) acc in
  match fuel with
  | O => acc'
  | S f => if n <? 10 then acc' else digits_of f (n / 10) acc'
  end.

(** Enough iterations for every loop that divides [n] by ten until it
    reaches zero: [n < 2 ^ loop_fuel n]. *)
Definition loop_fuel (n : Z) : nat := S (Z.to_nat (Z.log2 n)).

(** [str(n)] for an [int]. *)
Definition str_int (n : Z) : string :=
  if n <? 0 then String "-"%char (digits_of (loop_fuel (- n)) (- n) EmptyString)
  else digits_of (loop_fuel n) n EmptyString.

Definition digit_val (c : ascii) : option Z :=
  let k := Z.of_nat (nat_of_ascii c) in
  if (48 <=? k) && (k <=? 57) then Some (k - 48) else None.

Fixpoint parse_digits (s : string) (acc : Z) : option Z :=
  match s with
  | EmptyString => Some acc
  | String c s' =>
      match digit_val c with
      | Some d => parse_digits s' (acc * 10 + d)
      | None => None
      end
  end.

(** [int(s)] on a plain decimal string: an optional minus sign and at least
    one digit.  Anything else is rejected here ([ValueError]). *)
Definition int_of_decimal (s : string) : outcome Z :=
  match s with
  | EmptyString => Raise ValueError
  | String "-"%char EmptyString => Raise ValueError
  | String "-"%char s' =>
      match parse_digits s' 0 with Some n => Ok (- n) | None => Raise ValueError end
  | _ =>
      match parse_digits s 0 with Some n => Ok n | None => Raise ValueError end
  end.

(** [s[a:b]] and [s[a:]] for non-negative bounds. *)
Definition slice (a b : nat) (s : string) : string := substring a (b - a) s.
Definition slice_from (a : nat) (s : string) : string := substring a (String.length s - a) s.

(** [b.decode()]: the bytes must be well-formed UTF-8.  [utf8_run] reads
    them with the number of continuation bytes still due and the range
    allowed for the next one.  A [str] is kept as its UTF-8 bytes, so that
    two of them are equal exactly when their bytes are. *)
Fixpoint utf8_run (pending : nat) (lo hi : N) (s : string) : bool :=
  match s with
  | EmptyString => Nat.eqb pending 0
  | String c s' =>
      let b := N_of_ascii c in
      match pending with
      | O =>
          if (b <? 128)%N then utf8_run 0 128 191 s'
          else if ((194 <=? b) && (b <=? 223))%N then utf8_run 1 128 191 s'
          else if (b =? 224)%N then utf8_run 2 160 191 s'
          else if (b =? 237)%N then utf8_run 2 128 159 s'
          else if ((225 <=? b) && (b <=? 239))%N then utf8_run 2 128 191 s'
          else if (b =? 240)%N then utf8_run 3 144 191 s'
          else if ((241 <=? b) && (b <=? 243))%N then utf8_run 3 128 191 s'
          else if (b =? 244)%N then utf8_run 3 128 143 s'
          else false
      | S k =>
          if ((lo <=? b) && (b <=? hi))%N then utf8_run k 128 191 s'
          else false
      end
  end.

Definition valid_utf8 (b : string) : bool := utf8_run 0 128 191 b.

Definition decode (b : string) : outcome string :=
  if valid_utf8 b then Ok b else Raise UnicodeDecodeError.

(** ** arguments_values_helpers.py *)

(** The [while n > 0] loop of [numberOfDigits] on an [int]. *)
Fixpoint count_digits (fuel : nat) (n count : Z) : Z :=
  match fuel with
  | O => count
  | S f => if 0 <? n then count_digits f (n / 10) (count + 1) else count
  end.

(** The same loop on a [float]: [n // 10] is the floor of the quotient. *)
Fixpoint count_digits_float (fuel : nat) (n : Q) (count : Z) : Z :=
  match fuel with
  | O => count
  | S f =>
      if Qgtb n 0 then count_digits_float f (float_floordiv n 10) (count + 1)
      else count
  end.

Definition numberOfDigits (n : pyval) : Z :=
  match n with
  | VNone => -1
  | VInt z => if z =? 0 then 1 else count_digits (loop_fuel z) z 0
  | VFloat q =>
      if Qeq_bool q 0 then 1 else count_digits_float (loop_fuel (Qfloor q)) q 0
  end.

(** [n > 0]; comparing [None] with a number raises. *)
Definition positive (n : pyval) : outcome bool :=
  match n with
  | VNone => Raise TypeError
  | VInt z => Ok (0 <? z)
  | VFloat q => Ok (Qgtb q 0)
  end.

(** ** The serial transport and the session *)

(** The UART as the driver sees it: [rx k] is what the [k]-th call of
    [readline] returns ([None] when no line arrived in time), [reads] counts
    the calls made so far and [tx] lists the commands written, oldest
    first. *)
Record UART : Type := mkUART {
  rx : nat -> option string;
  reads : nat;
  tx : list string
}.

Definition uart_write_ (cmd : string) (u : UART) : UART :=
  mkUART (rx u) (reads u) (tx u ++ [cmd]).

Definition uart_readline_ (u : UART) : option string * UART :=
  (rx u (reads u), mkUART (rx u) (S (reads u)) (tx u)).

(** The fields of a [sprintIRR20] object. *)
Record session : Type := mkSession {
  uart : UART;
  timeout : pyval;
  scalingFactor : Z;
  compensationValue : Z;
  pressure : Z;
  digitalFilter : Z
}.

Definition set_uart (s : session) (u : UART) : session :=
  mkSession u (timeout s) (scalingFactor s) (compensationValue s) (pressure s)
    (digitalFilter s).

Definition set_scalingFactor (s : session) (v : Z) : session :=
  mkSession (uart s) (timeout s) v (compensationValue s) (pressure s)
    (digitalFilter s).

Definition set_compensationValue (s : session) (v : Z) : session :=
  mkSession (uart s) (timeout s) (scalingFactor s) v (pressure s)
    (digitalFilter s).

Definition set_pressure (s : session) (v : Z) : session :=
  mkSession (uart s) (timeout s) (scalingFactor s) (compensationValue s) v
    (digitalFilter s).

Definition set_digitalFilter (s : session) (v : Z) : session :=
  mkSession (uart s) (timeout s) (scalingFactor s) (compensationValue s)
    (pressure s) v.

(** A method: it runs on the session and leaves an outcome and a session. *)
Definition M (A : Type) : Type := session -> outcome A * session.

Definition ret {A : Type} (a : A) : M A := fun s => (Ok a, s).

Definition raise {A : Type} (e : exn) : M A := fun s => (Raise e, s).

Definition bind {A B : Type} (m : M A) (k : A -> M B) : M B :=
  fun s =>
    match m s with
    | (Ok a, s') => k a s'
    | (Raise e, s') => (Raise e, s')
    | (OutOfFuel, s') => (OutOfFuel, s')
    end.

Definition lift {A : Type} (o : outcome A) : M A := fun s => (o, s).

Notation "x <- m ;; k" := (bind m (fun x => k))
  (at level 61, m at next level, right associativity).
Notation "m ;;; k" := (bind m (fun _ => k))
  (at level 61, right associativity).

Definition get {A : Type} (f : session -> A) : M A := fun s => (Ok (f s), s).

Definition uart_write (cmd : string) : M unit :=
  fun s => (Ok tt, set_uart s (uart_write_ cmd (uart s))).

(** ** Pressure and compensation conversions

    The two conversions in the rational reading.  [Binary64] below has the
    same expressions on floats: for pressures from -7000 to 2000 mbar and
    compensation values from 0 to 99999 the two readings give the same
    integers except at 1638 mbar and at the compensation values 92160,
    94208, 96256 and 98304, where the floats end one unit away
    ([pressureToCompensation_closed_form],
    [compensationToPressure_closed_form]). *)

Definition pressureToCompensation (pressure : Z) : Z :=
  int_of_float
    (8192 + ((inject_Z (1013 - pressure) * 0.14 / 100) * 8192))%Q.

Definition compensationToPressure (compensation : Z) : Z :=
  int_of_float
    (((inject_Z ((compensation - 8192) * 100) / 8192
       - (1013 * 0.14) / 0.14) * -1))%Q.

(** ** Measurement pipeline: the pure parts *)

Definition PPMtoPercentage (value : Z) : Q :=
  if value <? 0 then (-1)%Q
  else format_2f (inject_Z value / 10000)%Q.

(** The polynomial [Y] of [correctMeasurement], term by term as written,
    in the rational reading.  The code evaluates it in binary64, with
    [math.pow] from the C library, so its [Y] is this one up to rounding
    only. *)
Definition correction_Y (value : Z) : Q :=
  let v := inject_Z value in
  if 1500 <=? value then
    (2.6661 * math_pow 10 (-16) * math_pow v 4
     - 1.1146 * math_pow 10 (-12) * math_pow v 3
     + 1.7397 * math_pow 10 (-9) * math_pow v 2
     - 1.2556 * math_pow 10 (-6) * v
     - 9.8754 * math_pow 10 (-4))%Q
  else
    (2.881 * math_pow 10 (-38) * math_pow v 6
     - 9.817 * math_pow 10 (-32) * math_pow v 5
     + 1.304 * math_pow 10 (-25) * math_pow v 4
     - 8.126 * math_pow 10 (-20) * math_pow v 3
     + 2.311 * math_pow 10 (-14) * math_pow v 2
     - 2.195 * math_pow 10 (-9) * v
     - 1.471 * math_pow 10 (-3))%Q.

(** [int(value / (1 + Y * (1013 - self.pressure)))]. *)
Definition corrected_value (value pressure : Z) : outcome Z :=
  let Y := correction_Y value in
  match float_div (inject_Z value) (1 + Y * inject_Z (1013 - pressure))%Q with
  | Ok q => Ok (int_of_float q)
  | Raise e => Raise e
  | OutOfFuel => OutOfFuel
  end.

Definition correctMeasurement (value : Z) : M Z :=
  p <- get pressure ;; lift (corrected_value value p).

(** *** The correction as the specification words it

    Coefficient lists, highest degree first and the constant term last,
    evaluated by Horner's rule; the quotient is cut toward zero, that is
    floored when it is non-negative and ceiled when it is negative. *)

Definition high_coefficients : list Q :=
  [2.6661e-16; -1.1146e-12; 1.7397e-9; -1.2556e-6; -9.8754e-4]%Q.

Definition low_coefficients : list Q :=
  [2.881e-38; -9.817e-32; 1.304e-25; -8.126e-20; 2.311e-14; -2.195e-9;
   -1.471e-3]%Q.

Definition polynomial (coefficients : list Q) (x : Q) : Q :=
  fold_left (fun acc c => (acc * x + c)%Q) coefficients 0%Q.

Definition toward_zero (q : Q) : Z :=
  if Qle_bool 0 q then Qfloor q else Qceiling q.

Definition spec_corrected_value (value pressure : Z) : option Z :=
  let Y := polynomial
             (if 1500 <=? value then high_coefficients else low_coefficients)
             (inject_Z value) in
  let d := (1 + Y * inject_Z (1013 - pressure))%Q in
  if Qeq_bool d 0 then None else Some (toward_zero (inject_Z value / d)).

(** ** The driver *)

Definition is_None (v : pyval) : bool :=
  match v with VNone => true | _ => false end.

(** [v > k] and [v == k] for an [int] constant [k]. *)
Definition py_gt (v : pyval) (k : Z) : outcome bool :=
  match v with
  | VNone => Raise TypeError
  | VInt z => Ok (k <? z)
  | VFloat q => Ok (Qgtb q (inject_Z k))
  end.

Definition py_eq (v : pyval) (k : Z) : bool :=
  match v with
  | VNone => false
  | VInt z => z =? k
  | VFloat q => Qeq_bool q (inject_Z k)
  end.

(** [v / d] for an [int] divisor: true division, a float. *)
Definition py_truediv (v : pyval) (d : Z) : outcome Q :=
  match v with
  | VNone => Raise TypeError
  | VInt z => float_div (inject_Z z) (inject_Z d)
  | VFloat q => float_div q (inject_Z d)
  end.

(** [int(v)]. *)
Definition py_int_of (v : pyval) : outcome Z :=
  match v with
  | VNone => Raise TypeError
  | VInt z => Ok z
  | VFloat q => Ok (int_of_float q)
  end.

(** The state of the variable [response] of [UART_recv]. *)
Inductive variable : Type :=
| Unbound
| Bound (r : option string).

(** [for counter in range(n)]: read a line, go on while there is none. *)
Fixpoint recv_for (n : nat) (response : variable) (u : UART) : variable * UART :=
  match n with
  | O => (response, u)
  | S k =>
      let (r, u') := uart_readline_ u in
      match r with
      | None => recv_for k (Bound None) u'
      | Some l => (Bound (Some l), u')
      end
  end.

(** [while True]: the same without a bound; [None] when the fuel of the
    model ran out before a line came. *)
Fixpoint recv_forever (fuel : nat) (u : UART) : option string * UART :=
  match fuel with
  | O => (None, u)
  | S f =>
      let (r, u') := uart_readline_ u in
      match r with
      | None => recv_forever f u'
      | Some l => (Some l, u')
      end
  end.

Definition modify (f : session -> session) : M unit := fun s => (Ok tt, f s).

Section Driver.

(** How many iterations of the unbounded wait are explored. *)
Variable wait_fuel : nat.

(** Python built-ins that the driver applies to a field it received:
    [int] of the field (of its bytes, or of their decoding),
    [int(float(b))], and [str(x)] of a float. *)
Variable py_int : string -> outcome Z.
Variable py_int_float : string -> outcome Z.
Variable py_str_float : Q -> string.

Definition py_str (v : pyval) : string :=
  match v with
  | VNone => "None"%string
  | VInt z => str_int z
  | VFloat q => py_str_float q
  end.

Definition formatArgument5digits (value : pyval) : string :=
  let digits := numberOfDigits value in
  if digits =? 1 then ("0000" ++ py_str value)%string
  else if digits =? 2 then ("000" ++ py_str value)%string
  else if digits =? 3 then ("00" ++ py_str value)%string
  else if digits =? 4 then ("0" ++ py_str value)%string
  else py_str value.

(** The branch without a timeout: the line is returned whenever it
    comes. *)
Definition recv_no_timeout : M (option string) :=
  fun s =>
    match recv_forever wait_fuel (uart s) with
    | (Some l, u) => (Ok (Some l), set_uart s u)
    | (None, u) => (OutOfFuel, set_uart s u)
    end.

Definition UART_recv (timeout : pyval) : M (option string) :=
  fun s =>
    match timeout with
    | VNone => (Raise TypeError, s)
    | VInt t =>
        if t =? 0 then recv_no_timeout s
        else
          match recv_for (Z.to_nat (16 * t)) Unbound (uart s) with
          | (Unbound, u) => (Raise UnboundLocalError, set_uart s u)
          | (Bound None, u) => (Raise SprintIRR20_timeout, set_uart s u)
          | (Bound (Some l), u) => (Ok (Some l), set_uart s u)
          end
    | VFloat q =>
        if Qeq_bool q 0 then recv_no_timeout s
        else (Raise TypeError, s)
    end.

(** [self.UART_recv(timeout=self.timeout)]. *)
Definition recv : M (option string) := t <- get timeout ;; UART_recv t.

(** [r[a:b]] and [r[a:]] on what [UART_recv] returned. *)
Definition subscript (a b : nat) (r : option string) : M string :=
  match r with
  | None => raise TypeError
  | Some l => ret (slice a b l)
  end.

Definition subscript_from (a : nat) (r : option string) : M string :=
  match r with
  | None => raise TypeError
  | Some l => ret (slice_from a l)
  end.

(** [r[a:b].decode()] and [r[a:].decode()]. *)
Definition decode_slice (a b : nat) (r : option string) : M string :=
  x <- subscript a b r ;; lift (decode x).

Definition decode_from (a : nat) (r : option string) : M string :=
  x <- subscript_from a r ;; lift (decode x).

(** [value is None or not hp.positive(value)]. *)
Definition none_or_not_positive (value : pyval) : M bool :=
  if is_None value then ret true
  else p <- lift (positive value) ;; ret (negb p).

(** *** Measurements *)

Definition getMostRecentFilteredCO2Measurement : M Z :=
  uart_write ("Z" ++ CRLF) ;;;
  result <- recv ;;
  match result with
  | None => raise SprintIRR20_unexpected_reply
  | Some r => lift (py_int_float (slice 3 8 r))
  end.

Definition getMostRecentUnfilteredCO2Measurement : M Z :=
  uart_write ("z" ++ CRLF) ;;;
  result <- recv ;;
  match result with
  | None => raise SprintIRR20_unexpected_reply
  | Some r => lift (py_int_float (slice 3 8 r))
  end.

(** The read that [getCO2Measurement] starts with. *)
Definition read_measurement (filtered : bool) : M Z :=
  if filtered then getMostRecentFilteredCO2Measurement
  else getMostRecentUnfilteredCO2Measurement.

(** The value read is an [int] whenever the read returns, so the test
    [type(value) != int] never fires. *)
Definition getCO2Measurement (filtered check_correction : bool) : M Z :=
  value <- (if filtered then getMostRecentFilteredCO2Measurement
            else getMostRecentUnfilteredCO2Measurement) ;;
  if value <? 0 then ret (-1)
  else
    sf <- get scalingFactor ;;
    let value := value * sf in
    if check_correction && Qgtb (PPMtoPercentage value) 1.0
    then correctMeasurement value
    else ret value.

(** *** Digital filter *)

Definition setDigitalFilter (value : pyval) : M Z :=
  invalid <-
    (if is_None value then ret true
     else
       over <- lift (py_gt value 65635) ;;
       if over then ret true
       else
         p <- lift (positive value) ;;
         if negb p then ret true else ret (py_eq value 0)) ;;
  if invalid then ret (-1)
  else
    let value_str := formatArgument5digits value in
    let command := ("A " ++ value_str ++ CRLF)%string in
    uart_write command ;;;
    r <- recv ;;
    result <- decode_from 1 r ;;
    if negb (String.eqb result command)
    then raise SprintIRR20_unexpected_reply
    else ret 0.

Definition getDigitalFilter : M Z :=
  uart_write ("a" ++ CRLF) ;;;
  r <- recv ;;
  result <- subscript 3 8 r ;;
  lift (py_int result).

(** *** Zero-point settings *)

Definition fineTuneZeroPoint (known_reading known_concentration : pyval) : M Z :=
  invalid <-
    (a <- none_or_not_positive known_reading ;;
     if a then ret true else none_or_not_positive known_reading) ;;
  if invalid then ret (-1)
  else
    sf <- get scalingFactor ;;
    q_reading <- lift (py_truediv known_reading sf) ;;
    let known_reading := int_of_float q_reading in
    q_concentration <- lift (py_truediv known_concentration sf) ;;
    let known_concentration := int_of_float q_concentration in
    let command :=
      ("F " ++ str_int known_reading ++ " " ++ str_int known_concentration
         ++ CRLF)%string in
    uart_write command ;;;
    r <- recv ;;
    result <- decode_from 1 r ;;
    ret 0.

Definition zeroPointManualSetting (value : pyval) : M Z :=
  invalid <- none_or_not_positive value ;;
  if invalid then ret (-1)
  else
    sf <- get scalingFactor ;;
    value <- lift (py_truediv value sf) ;;
    let value_str := formatArgument5digits (VFloat value) in
    let command := ("u " ++ value_str ++ CRLF)%string in
    uart_write command ;;;
    r <- recv ;;
    result <- decode_from 1 r ;;
    if negb (String.eqb result command)
    then raise SprintIRR20_unexpected_reply
    else ret 0.

(** *** Background concentration *)

Definition setBackgroundPPMAutozeroing (value : pyval) : M Z :=
  invalid <- none_or_not_positive value ;;
  if invalid then ret (-1)
  else
    sf <- get scalingFactor ;;
    value <- lift (py_truediv value sf) ;;
    let msb := int_of_float (value / 256)%Q in
    let lsb := int_of_float (value - inject_Z (256 * msb))%Q in
    let msb_str := formatArgument5digits (VInt msb) in
    let lsb_str := formatArgument5digits (VInt lsb) in
    let command_msb := ("P 00008 " ++ msb_str ++ CRLF)%string in
    let command_lsb := ("P 00009 " ++ lsb_str ++ CRLF)%string in
    uart_write command_msb ;;;
    r <- recv ;;
    result_msb <- decode_from 1 r ;;
    if negb (String.eqb result_msb command_msb)
    then raise SprintIRR20_unexpected_reply
    else
      uart_write command_lsb ;;;
      r <- recv ;;
      result_lsb <- decode_slice 9 14 r ;;
      if negb (String.eqb result_lsb command_lsb)
      then raise SprintIRR20_unexpected_reply
      else ret 0.

Definition setBackgroundPPMFreshAir (value : pyval) : M Z :=
  invalid <- none_or_not_positive value ;;
  if invalid then ret (-1)
  else
    sf <- get scalingFactor ;;
    value <- lift (py_truediv value sf) ;;
    let msb := int_of_float (value / 256)%Q in
    let lsb := int_of_float (value - inject_Z (256 * msb))%Q in
    let msb_str := formatArgument5digits (VInt msb) in
    let lsb_str := formatArgument5digits (VInt lsb) in
    let command_msb := ("P 00010 " ++ msb_str ++ CRLF)%string in
    let command_lsb := ("P 00011 " ++ lsb_str ++ CRLF)%string in
    uart_write command_msb ;;;
    r <- recv ;;
    result_msb <- decode_from 1 r ;;
    if negb (String.eqb result_msb command_msb)
    then raise SprintIRR20_unexpected_reply
    else
      uart_write command_lsb ;;;
      r <- recv ;;
      result_lsb <- decode_from 1 r ;;
      if negb (String.eqb result_lsb command_lsb)
      then raise SprintIRR20_unexpected_reply
      else ret 0.

(** *** Pressure and concentration compensation *)

Definition setPressureAndCompensationValue (value : pyval) : M Z :=
  invalid <- none_or_not_positive value ;;
  if invalid then ret (-1)
  else
    let value_str := formatArgument5digits value in
    let command := ("S " ++ value_str ++ CRLF)%string in
    uart_write command ;;;
    r <- recv ;;
    result <- decode_from 1 r ;;
    if negb (String.eqb result command)
    then raise SprintIRR20_unexpected_reply
    else
      v <- lift (py_int_of value) ;;
      modify (fun s => set_compensationValue s v) ;;;
      ret 0.

Definition getPressureAndCompensationValue : M Z :=
  let command := ("s" ++ CRLF)%string in
  uart_write command ;;;
  r <- recv ;;
  result <- subscript 3 8 r ;;
  v <- lift (py_int result) ;;
  if v <? 0 then raise SprintIRR20_unexpected_reply
  else lift (py_int result).

(** *** Auto-zeroing *)

Definition setInitialAndIntervalAutoZeroing (initial regular : pyval) : M Z :=
  invalid <-
    (a <- none_or_not_positive initial ;;
     if a then ret true else none_or_not_positive regular) ;;
  if invalid then ret (-1)
  else if (1 <? numberOfDigits initial) || (1 <? numberOfDigits regular)
  then ret (-1)
  else
    let command :=
      ("@ " ++ py_str initial ++ ".0 " ++ py_str regular ++ ".0" ++ CRLF)%string in
    uart_write command ;;;
    r <- recv ;;
    result <- decode_from 1 r ;;
    if negb (String.eqb result command)
    then raise SprintIRR20_unexpected_reply
    else ret 0.

(** *** Miscellaneous *)

Definition getScalingFactorMultiplier : M Z :=
  uart_write ("." ++ CRLF) ;;;
  r <- recv ;;
  result <- subscript 3 8 r ;;
  lift (py_int result).

(** *** Methods that accept any reply

    After the slice and [decode()] the result is never [None], so the test
    on it never fires: once the reply has been decoded, the call returns
    0 whatever it says. *)

Definition zeroPointFreshAir : M Z :=
  uart_write ("G" ++ CRLF) ;;;
  r <- recv ;;
  result <- decode_from 1 r ;;
  ret 0.

Definition zeroPointNitrogen : M Z :=
  uart_write ("U" ++ CRLF) ;;;
  r <- recv ;;
  result <- decode_from 1 r ;;
  ret 0.

Definition zeroPointKnownGas (value : pyval) : M Z :=
  invalid <- none_or_not_positive value ;;
  if invalid then ret (-1)
  else
    sf <- get scalingFactor ;;
    value <- lift (py_truediv value sf) ;;
    let value_str := formatArgument5digits (VFloat value) in
    let command := ("X " ++ value_str ++ CRLF)%string in
    uart_write command ;;;
    r <- recv ;;
    result <- decode_from 1 r ;;
    ret 0.

Definition getAutoZeroingConfiguration : M Z :=
  let command := ("@ " ++ CRLF)%string in
  uart_write command ;;;
  r <- recv ;;
  result <- decode_from 1 r ;;
  ret 0.

(** *** Mode and auto-zero switches *)

(** [mode in [0,1,2]]. *)
Definition mode_in_range (mode : pyval) : bool :=
  py_eq mode 0 || py_eq mode 1 || py_eq mode 2.

Definition switchMode (mode : pyval) : M Z :=
  if mode_in_range mode then
    let command := ("K 0000" ++ py_str mode ++ CRLF)%string in
    uart_write command ;;;
    r <- recv ;;
    result <- decode_from 1 r ;;
    if negb (String.eqb result command)
    then raise SprintIRR20_unexpected_reply
    else ret 0
  else ret (-1).

Definition switchAutoZeroing (value : bool) : M Z :=
  let command := (if value then "@ 1" ++ CRLF else "@ 0" ++ CRLF)%string in
  uart_write command ;;;
  r <- recv ;;
  result <- decode_from 1 r ;;
  if negb (String.eqb result command)
  then raise SprintIRR20_unexpected_reply
  else ret 0.

Definition getMessageType : M string :=
  r <- recv ;;
  decode_slice 1 2 r.

(** *** Start-up

    [__init__] with [verbose = False]: the fields are assigned in the
    order of the source, on an object that has only its UART. *)
Definition init (timeout : pyval) (scaling_factor : option Z) : M unit :=
  modify (fun s =>
            mkSession (uart s) timeout (scalingFactor s)
              (compensationValue s) (pressure s) (digitalFilter s)) ;;;
  sf <- (match scaling_factor with
         | None => getScalingFactorMultiplier
         | Some v => ret v
         end) ;;
  modify (fun s => set_scalingFactor s sf) ;;;
  c <- getPressureAndCompensationValue ;;
  modify (fun s => set_compensationValue s c) ;;;
  c' <- get compensationValue ;;
  modify (fun s => set_pressure s (compensationToPressure c')) ;;;
  d <- getDigitalFilter ;;
  modify (fun s => set_digitalFilter s d).

End Driver.

Definition new_object (u : UART) : session := mkSession u VNone 0 0 0 0.

(** ** Concrete built-ins for running the driver

    [int(b)] and [int(float(b))] on a field of decimal digits, and [str(x)]
    of a float whose value is a non-negative integer ([400.0]).  Python
    accepts and prints more than this; the worked examples use no more. *)

Definition int_of_field (b : string) : outcome Z := int_of_decimal b.

Definition str_of_integral_float (q : Q) : string :=
  (str_int (Qfloor q) ++ ".0")%string.

(** A UART that answers with the given lines, one per read, and is silent
    afterwards; nothing read or written yet. *)
Definition uart_of_lines (lines : list (option string)) : UART :=
  mkUART (fun k => nth k lines None) 0 [].

(** A line as the sensor sends it: a leading space, then the text. *)
Definition reply (text : string) : option string :=
  Some (String " "%char (text ++ CRLF)).

(** ** IEEE binary64 replay of the float computations *)

Module Binary64.

(** [float(z)]; exact below [2^53]. *)
Definition of_int (z : Z) : float :=
  if z <? 0 then PrimFloat.opp (PrimFloat.of_uint63 (Uint63.of_Z (- z)))
  else PrimFloat.of_uint63 (Uint63.of_Z z).

(** The rational a finite float denotes. *)
Definition exact (x : float) : option Q :=
  match Prim2SF x with
  | S754_zero _ => Some 0%Q
  | S754_finite sign m e =>
      let mag := (inject_Z (Z.pos m) * Qpower 2 e)%Q in
      Some (if sign then (- mag)%Q else mag)
  | _ => None
  end.

(** [int(x)]. *)
Definition to_int (x : float) : option Z :=
  option_map int_of_float (exact x).

(** [int(x)] read off the mantissa: shifted left by an exponent that is
    not negative, right by one that is. *)
Definition to_int_shift (x : float) : option Z :=
  match Prim2SF x with
  | S754_zero _ => Some 0
  | S754_finite sign m e =>
      let mag := if 0 <=? e then Z.shiftl (Z.pos m) e
                 else Z.shiftr (Z.pos m) (- e) in
      Some (if sign then - mag else mag)
  | _ => None
  end.

Definition pressureToCompensation (pressure : Z) : option Z :=
  to_int (8192 + ((of_int (1013 - pressure) * 0.14 / 100) * 8192))%float.

Definition compensationToPressure (compensation : Z) : option Z :=
  to_int (((of_int ((compensation - 8192) * 100) / 8192
            - (1013 * 0.14) / 0.14) * -1))%float.

(** [PPMtoPercentage(value) > 1.0] for a non-negative [value]: the decimal
    string with two places is read back exactly as far as the comparison
    with [1.0] goes. *)
Definition percentage_above_one (value : Z) : option bool :=
  option_map (fun q => Qgtb (format_2f q) 1.0)
    (exact (of_int value / 10000)%float).

(** [msb] and [lsb] of the background commands. *)
Definition msb_lsb (value scalingFactor : Z) : option (Z * Z) :=
  let v := (of_int value / of_int scalingFactor)%float in
  match to_int (v / 256)%float with
  | Some msb =>
      option_map (fun lsb => (msb, lsb)) (to_int (v - of_int (256 * msb))%float)
  | None => None
  end.

End Binary64.

(** ** Sessions to run the driver on *)

(** A session as start-up leaves it, with a one-second timeout, the default
    filter, and a UART that will answer with [lines]. *)
Definition session_with (scaling compensation : Z)
    (lines : list (option string)) : session :=
  mkSession (uart_of_lines lines) (VInt 1) scaling compensation
    (compensationToPressure compensation) 16.

(** ** Frames *)

(** What a method may change: [same_but_reads s s'] says that [s'] is [s]
    with a possibly larger read counter. *)
Definition same_but_reads (s s' : session) : Prop :=
  timeout s' = timeout s /\ scalingFactor s' = scalingFactor s /\
  compensationValue s' = compensationValue s /\ pressure s' = pressure s /\
  digitalFilter s' = digitalFilter s /\
  rx (uart s') = rx (uart s) /\ tx (uart s') = tx (uart s) /\
  (reads (uart s) <= reads (uart s'))%nat.

(** The session once [command] has been written. *)
Definition written (command : string) (s : session) : session :=
  set_uart s (uart_write_ command (uart s)).

(** The session once [k] more lines have been asked for. *)
Definition advance (k : nat) (s : session) : session :=
  set_uart s (mkUART (rx (uart s)) (reads (uart s) + k) (tx (uart s))).

(** The first line that comes, counted from the next read, is [l], at
    attempt [i]. *)
Definition first_line_at (i : nat) (l : string) (s : session) : Prop :=
  (forall j, (j < i)%nat -> rx (uart s) (reads (uart s) + j) = None) /\
  rx (uart s) (reads (uart s) + i) = Some l.

(** No line comes during the next [n] attempts. *)
Definition silent_for (n : nat) (s : session) : Prop :=
  forall i, (i < n)%nat -> rx (uart s) (reads (uart s) + i) = None.

(** [same_fields s s'] says that the cached settings are the same. *)
Definition same_fields (s s' : session) : Prop :=
  timeout s' = timeout s /\ scalingFactor s' = scalingFactor s /\
  compensationValue s' = compensationValue s /\ pressure s' = pressure s /\
  digitalFilter s' = digitalFilter s.

(** What a getter does to the session: one command written, settings
    kept. *)
Definition sends (command : string) (s s' : session) : Prop :=
  same_fields s s' /\ tx (uart s') = tx (uart s) ++ [command].

(** ** Checking a range of integers

    [forall_from f lo n] tests [f] on the [n] integers from [lo] on. *)
Fixpoint forall_from (f : Z -> bool) (lo : Z) (n : nat) : bool :=
  match n with
  | O => true
  | S k => f lo && forall_from f (lo + 1) k
  end.

(** The closed forms the two conversions are compared with: 8192 plus
    11.4688 per mbar below 1013, and 1013 minus 25/2048 mbar per unit above
    8192, both cut toward zero. *)
Definition compensation_cut (pressure : Z) : Z :=
  Z.quot (5120000 + 7168 * (1013 - pressure)) 625.

Definition pressure_cut (compensation : Z) : Z :=
  Z.quot (2279424 - 25 * compensation) 2048.

(** The compensation values from which the binary64 [(1013*0.14)/0.14],
    which is [1013.0000000000001], shows in the result. *)
Definition pressure_off_by_one (compensation : Z) : bool :=
  existsb (Z.eqb compensation) [92160; 94208; 96256; 98304].

(** * Properties *)

(** ** Decimal strings *)

Lemma digit_val_digit_char (d : Z) :
  0 <= d < 10 -> digit_val (digit_char d) = Some d.
Proof.
  intros H.
  assert (E : d = 0 \/ d = 1 \/ d = 2 \/ d = 3 \/ d = 4 \/ d = 5 \/ d = 6
              \/ d = 7 \/ d = 8 \/ d = 9) by lia.
  repeat (destruct E as [-> | E]; [reflexivity |]); subst; reflexivity.
Qed.

Lemma loop_fuel_bound (n : Z) : 0 <= n -> n < 2 ^ Z.of_nat (loop_fuel n).
Proof.
  intros H. unfold loop_fuel.
  rewrite Nat2Z.inj_succ, Z2Nat.id by apply Z.log2_nonneg.
  destruct (Z.eq_dec n 0) as [-> | Hn]; [reflexivity |].
  apply Z.log2_spec. lia.
Qed.

Lemma tenth_bound (f : nat) (n : Z) :
  0 <= n < 2 ^ Z.of_nat (S f) -> 0 <= n / 10 < 2 ^ Z.of_nat f.
Proof.
  intros [H0 H1]. rewrite Nat2Z.inj_succ, Z.pow_succ_r in H1 by lia.
  split; [apply Z.div_pos; lia |].
  apply Z.div_lt_upper_bound; lia.
Qed.

Lemma append_assoc (s1 s2 s3 : string) :
  ((s1 ++ s2) ++ s3 = s1 ++ (s2 ++ s3))%string.
Proof. induction s1; simpl; congruence. Qed.

Lemma digits_of_acc (fuel : nat) :
  forall n acc, digits_of fuel n acc = (digits_of fuel n EmptyString ++ acc)%string.
Proof.
  induction fuel as [| f IH]; intros n acc; simpl.
  - reflexivity.
  - destruct (n <? 10); [reflexivity |].
    rewrite IH. rewrite (IH _ (String _ EmptyString)).
    rewrite append_assoc. reflexivity.
Qed.

Lemma parse_digits_app (s1 s2 : string) :
  forall a,
    parse_digits (s1 ++ s2) a =
    match parse_digits s1 a with
    | Some v => parse_digits s2 v
    | None => None
    end.
Proof.
  induction s1 as [| c s1 IH]; intros a; simpl.
  - reflexivity.
  - destruct (digit_val c); [apply IH | reflexivity].
Qed.

(** Reading back the digits of [n] gives [n]. *)
Lemma parse_digits_of (fuel : nat) :
  forall n, 0 <= n < 2 ^ Z.of_nat fuel ->
            parse_digits (digits_of fuel n EmptyString) 0 = Some n.
Proof.
  induction fuel as [| f IH]; intros n Hn.
  - simpl in Hn. assert (n = 0) by lia. subst. reflexivity.
  - cbn [digits_of]. destruct (Z.ltb_spec n 10) as [Hlt | Hge].
    + cbn [parse_digits]. rewrite digit_val_digit_char
        by (apply Z.mod_pos_bound; lia).
      rewrite Z.mod_small by lia. f_equal; lia.
    + rewrite (digits_of_acc f (n / 10)
                 (String (digit_char (n mod 10)) EmptyString)).
      rewrite parse_digits_app.
      rewrite IH by (apply tenth_bound; exact Hn).
      cbn [parse_digits]. rewrite digit_val_digit_char
        by (apply Z.mod_pos_bound; lia).
      f_equal. pose proof (Z.div_mod n 10). lia.
Qed.

Lemma length_append (s1 s2 : string) :
  String.length (s1 ++ s2) = (String.length s1 + String.length s2)%nat.
Proof. induction s1; simpl; congruence. Qed.

(** The loop of [numberOfDigits] counts the characters of [str(n)]. *)
Lemma count_digits_length (fuel : nat) :
  forall n count,
    0 < n < 2 ^ Z.of_nat fuel ->
    count_digits fuel n count =
    count + Z.of_nat (String.length (digits_of fuel n EmptyString)).
Proof.
  induction fuel as [| f IH]; intros n count Hn.
  - simpl in Hn. lia.
  - cbn [count_digits digits_of].
    destruct (Z.ltb_spec 0 n) as [_ | ?]; [| lia].
    destruct (Z.ltb_spec n 10) as [Hlt | Hge].
    + rewrite Z.div_small by lia.
      destruct f; simpl; lia.
    + rewrite (digits_of_acc f (n / 10)
                 (String (digit_char (n mod 10)) EmptyString)), length_append.
      assert (Hq : 0 < n / 10) by (apply Z.div_str_pos; lia).
      rewrite IH by (pose proof (tenth_bound f n); lia).
      simpl. lia.
Qed.



(** More fuel does not change the count: the loop has run to its end. *)
Lemma count_digits_enough (fuel : nat) :
  forall n count extra,
    0 <= n < 2 ^ Z.of_nat fuel ->
    count_digits (fuel + extra) n count = count_digits fuel n count.
Proof.
  induction fuel as [| f IH]; intros n count extra Hn.
  - simpl in Hn. assert (n = 0) by lia. subst.
    destruct extra; reflexivity.
  - cbn [Nat.add count_digits]. destruct (0 <? n); [| reflexivity].
    apply IH, tenth_bound, Hn.
Qed.

Lemma int_of_decimal_digits (s : string) (n : Z) :
  s <> EmptyString -> parse_digits s 0 = Some n -> int_of_decimal s = Ok n.
Proof.
  destruct s as [| c s']; [congruence |]. intros _ H.
  destruct (ascii_dec c "-"%char) as [-> | Hc].
  - simpl in H. discriminate.
  - unfold int_of_decimal.
    destruct c as [[] [] [] [] [] [] [] []]; try congruence;
      try (rewrite H; reflexivity).
Qed.

Lemma str_int_nonneg (n : Z) :
  0 <= n -> str_int n = digits_of (loop_fuel n) n EmptyString.
Proof.
  intros H. unfold str_int. destruct (Z.ltb_spec n 0); [lia | reflexivity].
Qed.

Lemma digits_of_nonempty (fuel : nat) (n : Z) (acc : string) :
  digits_of fuel n acc <> EmptyString.
Proof.
  revert n acc. induction fuel as [| f IH]; intros n acc; simpl.
  - discriminate.
  - destruct (n <? 10); [discriminate | apply IH].
Qed.

(** [int(str(n)) = n] for a non-negative [n]. *)
Lemma int_of_decimal_str_int (n : Z) :
  0 <= n -> int_of_decimal (str_int n) = Ok n.
Proof.
  intros H. rewrite str_int_nonneg by exact H.
  apply int_of_decimal_digits.
  - apply digits_of_nonempty.
  - apply parse_digits_of. split; [exact H | apply loop_fuel_bound; exact H].
Qed.

(** On a positive [int], [numberOfDigits] is the length of [str(n)]. *)
Lemma numberOfDigits_length (n : Z) :
  0 < n -> numberOfDigits (VInt n) = Z.of_nat (String.length (str_int n)).
Proof.
  intros H. unfold numberOfDigits.
  destruct (Z.eqb_spec n 0); [lia |].
  rewrite str_int_nonneg by lia.
  rewrite count_digits_length; [lia |].
  split; [exact H | apply loop_fuel_bound; lia].
Qed.



Section Format.

Variable py_str_float : Q -> string.


End Format.

(** ** Rational arithmetic *)

Ltac eval_closed t := let c := eval vm_compute in t in change t with c.

(** Unfold an order or equality of rationals with closed denominators into
    the integers. *)
Ltac q2z :=
  cbv [Qle Qlt Qeq Qmult Qminus Qplus Qopp Qdiv Qinv inject_Z Qnum Qden
       Pos.mul Pos.add Pos.succ].
Ltac q2z_in H :=
  cbv [Qle Qlt Qeq Qmult Qminus Qplus Qopp Qdiv Qinv inject_Z Qnum Qden
       Pos.mul Pos.add Pos.succ] in H.

(** Truncation toward zero is the floor of a non-negative quotient and the
    ceiling of a negative one. *)
Lemma int_of_float_toward_zero (q : Q) : int_of_float q = toward_zero q.
Proof.
  destruct q as [n d]. unfold int_of_float, toward_zero, Qceiling, Qfloor.
  cbn [Qnum Qden Qopp].
  destruct (Qle_bool 0 (n # d)) eqn:E.
  - apply Qle_bool_iff in E. unfold Qle in E. cbn in E.
    apply Z.quot_div_nonneg; lia.
  - assert (Hn : n < 0).
    { destruct (Z.lt_ge_cases n 0) as [Hlt | Hge]; [exact Hlt |].
      assert (Qle_bool 0 (n # d) = true); [| congruence].
      apply Qle_bool_iff. unfold Qle. cbn. lia. }
    rewrite <- (Z.opp_involutive n) at 1. rewrite Z.quot_opp_l by lia.
    rewrite Z.quot_div_nonneg by lia. reflexivity.
Qed.

Lemma toward_zero_comp (p q : Q) : (p == q)%Q -> toward_zero p = toward_zero q.
Proof.
  intros H. unfold toward_zero, Qceiling.
  rewrite (Qleb_comp 0%Q 0%Q (Qeq_refl 0%Q) p q H).
  rewrite (Qfloor_comp p q H).
  rewrite (Qfloor_comp (- p)%Q (- q)%Q) by (rewrite H; reflexivity).
  reflexivity.
Qed.

Lemma int_of_float_comp (p q : Q) : (p == q)%Q -> int_of_float p = int_of_float q.
Proof.
  intros H. rewrite !int_of_float_toward_zero. apply toward_zero_comp, H.
Qed.

Lemma Qgtb_comp (a b c d : Q) :
  (a == b)%Q -> (c == d)%Q -> Qgtb a c = Qgtb b d.
Proof.
  intros H1 H2. unfold Qgtb. rewrite (Qleb_comp a b H1 c d H2). reflexivity.
Qed.

Lemma round_half_even_comp (p q : Q) :
  (p == q)%Q -> round_half_even p = round_half_even q.
Proof.
  intros H. unfold round_half_even.
  rewrite (Qfloor_comp p q H).
  assert (E : (2 * (p - inject_Z (Qfloor q)) == 2 * (q - inject_Z (Qfloor q)))%Q)
    by (rewrite H; reflexivity).
  rewrite (Qgtb_comp _ _ 1%Q 1%Q E (Qeq_refl 1%Q)).
  rewrite (Qeqb_comp _ _ E 1%Q 1%Q (Qeq_refl 1%Q)).
  reflexivity.
Qed.

(** Rounding [v / 100] to the nearest integer, read on the quotient and the
    remainder of [v] by [100]. *)
Lemma round_half_even_hundredths (v : Z) :
  round_half_even (inject_Z v / 100)%Q =
  if 50 <? v mod 100 then v / 100 + 1
  else if v mod 100 =? 50 then (if Z.even (v / 100) then v / 100 else v / 100 + 1)
  else v / 100.
Proof.
  assert (E : (inject_Z v / 100 == v # 100)%Q).
  { q2z. lia. }
  rewrite (round_half_even_comp _ _ E).
  unfold round_half_even.
  change (Qfloor (v # 100)) with (v / 100).
  pose proof (Z.div_mod v 100 ltac:(lia)) as Hdm.
  pose proof (Z.mod_pos_bound v 100 ltac:(lia)) as Hb.
  set (a := v / 100) in *. set (b := v mod 100) in *. clearbody a b.
  assert (Hgt : Qgtb (2 * ((v # 100) - inject_Z a))%Q 1%Q = (50 <? b)).
  { unfold Qgtb. destruct (Z.ltb_spec 50 b) as [H | H].
    - destruct (Qle_bool _ _) eqn:Q1; [| reflexivity].
      apply Qle_bool_iff in Q1. q2z_in Q1. lia.
    - assert (Q1 : Qle_bool (2 * ((v # 100) - inject_Z a))%Q 1%Q = true).
      { apply Qle_bool_iff. q2z. lia. }
      rewrite Q1. reflexivity. }
  assert (Heq : Qeq_bool (2 * ((v # 100) - inject_Z a))%Q 1%Q = (b =? 50)).
  { destruct (Z.eqb_spec b 50) as [H | H].
    - apply Qeq_bool_iff. q2z. lia.
    - destruct (Qeq_bool _ _) eqn:Q1; [| reflexivity].
      apply Qeq_bool_iff in Q1. q2z_in Q1. lia. }
  rewrite Hgt, Heq. reflexivity.
Qed.

(** ** The percentage and the correction threshold *)

(** [PPMtoPercentage(value) > 1.0] holds from 10051 ppm on: the percentage is
    cut to two decimals before it is compared. *)
Lemma PPMtoPercentage_above_one (value : Z) :
  Qgtb (PPMtoPercentage value) 1.0 = (10050 <? value).
Proof.
  unfold PPMtoPercentage. destruct (Z.ltb_spec value 0) as [Hneg | Hpos].
  - destruct (Z.ltb_spec 10050 value); [lia | reflexivity].
  - unfold format_2f.
    assert (E : (inject_Z value / 10000 * 100 == inject_Z value / 100)%Q) by field.
    rewrite (round_half_even_comp _ _ E), round_half_even_hundredths.
    pose proof (Z.div_mod value 100 ltac:(lia)) as Hdm.
    pose proof (Z.mod_pos_bound value 100 ltac:(lia)) as Hb.
    set (a := value / 100) in *. set (b := value mod 100) in *.
    clearbody a b.
    assert (G : forall r : Z, Qgtb (inject_Z r / 100)%Q 1.0%Q = (100 <? r)).
    { intros r. unfold Qgtb. destruct (Z.ltb_spec 100 r) as [H | H].
      - destruct (Qle_bool _ _) eqn:Q1; [| reflexivity].
        apply Qle_bool_iff in Q1. q2z_in Q1. lia.
      - assert (Q1 : Qle_bool (inject_Z r / 100)%Q 1.0%Q = true).
        { apply Qle_bool_iff. q2z. lia. }
        rewrite Q1. reflexivity. }
    rewrite G.
    assert (Hcmp : forall x : Z, (100 < x <-> 10050 < value) ->
                               (100 <? x) = (10050 <? value)).
    { intros x Hx. destruct (Z.ltb_spec 100 x); destruct (Z.ltb_spec 10050 value);
        tauto || lia. }
    destruct (Z.ltb_spec 50 b); [apply Hcmp; lia |].
    destruct (Z.eqb_spec b 50); [| apply Hcmp; lia].
    destruct (Z.even a) eqn:Ev; [apply Hcmp; lia |].
    destruct (Z.eq_dec a 100) as [-> | Ha]; [discriminate Ev | apply Hcmp; lia].
Qed.

(** ** The nonlinear correction *)

Lemma correction_Y_polynomial (value : Z) :
  (correction_Y value ==
   polynomial (if 1500 <=? value then high_coefficients else low_coefficients)
     (inject_Z value))%Q.
Proof.
  unfold correction_Y, polynomial, math_pow.
  destruct (1500 <=? value).
  - eval_closed high_coefficients. cbn [fold_left].
    eval_closed (Qpower 10 (-16)). eval_closed (Qpower 10 (-12)).
    eval_closed (Qpower 10 (-9)). eval_closed (Qpower 10 (-6)).
    eval_closed (Qpower 10 (-4)).
    ring.
  - eval_closed low_coefficients. cbn [fold_left].
    eval_closed (Qpower 10 (-38)). eval_closed (Qpower 10 (-32)).
    eval_closed (Qpower 10 (-25)). eval_closed (Qpower 10 (-20)).
    eval_closed (Qpower 10 (-14)). eval_closed (Qpower 10 (-9)).
    eval_closed (Qpower 10 (-3)).
    ring.
Qed.

(** The correction read in exact arithmetic: the high branch from 1500
    on and the low branch below; [Y] is the polynomial in [value] with the
    listed coefficients (degree 4, respectively 6, highest degree first),
    and the result is [value / (1 + Y * (1013 - pressure))] cut to an
    integer toward zero; a zero denominator raises [ZeroDivisionError].
    This is a statement about the rational reading only.  The code
    computes every power, product and sum in binary64, the powers through
    the C library, and when the denominator is close to zero the quotient
    is large and its last digits follow the rounding: no equation with
    the exact polynomial holds of the floats. *)
Lemma correctMeasurement_rational_reading (value : Z) (s : session) :
  correctMeasurement value s =
  (match spec_corrected_value value (pressure s) with
   | Some corrected => Ok corrected
   | None => Raise ZeroDivisionError
   end, s).
Proof.
  unfold correctMeasurement, bind, get, lift, corrected_value,
    spec_corrected_value, float_div.
  pose proof (correction_Y_polynomial value) as HY.
  set (Y := correction_Y value) in *.
  set (P := polynomial _ _) in *.
  assert (Hd : (1 + Y * inject_Z (1013 - pressure s) ==
                1 + P * inject_Z (1013 - pressure s))%Q)
    by (rewrite HY; reflexivity).
  rewrite (Qeqb_comp _ _ Hd 0%Q 0%Q (Qeq_refl 0%Q)).
  destruct (Qeq_bool _ 0); [reflexivity |].
  rewrite int_of_float_toward_zero.
  f_equal. f_equal. apply toward_zero_comp. rewrite Hd. reflexivity.
Qed.

(** ** The receive loop *)

(** While no line comes, the bounded loop uses up all its attempts. *)
Lemma recv_for_silent (n : nat) :
  forall response u,
    (forall i, (i < n)%nat -> rx u (reads u + i) = None) ->
    recv_for n response u =
    (match n with O => response | S _ => Bound None end,
     mkUART (rx u) (reads u + n) (tx u)).
Proof.
  induction n as [| n IH]; intros response u H.
  - simpl. rewrite Nat.add_0_r. destruct u; reflexivity.
  - cbn [recv_for uart_readline_].
    pose proof (H 0%nat ltac:(lia)) as H0. rewrite Nat.add_0_r in H0.
    rewrite H0. rewrite IH.
    + cbn [rx reads tx]. rewrite Nat.add_succ_r. destruct n; reflexivity.
    + intros i Hi. cbn [rx reads]. rewrite Nat.add_succ_l, <- Nat.add_succ_r.
      apply H. lia.
Qed.

(** The loop stops at the first attempt that yields a line. *)
Lemma recv_for_first (n : nat) :
  forall response u i l,
    (i < n)%nat ->
    (forall j, (j < i)%nat -> rx u (reads u + j) = None) ->
    rx u (reads u + i) = Some l ->
    recv_for n response u =
    (Bound (Some l), mkUART (rx u) (reads u + S i) (tx u)).
Proof.
  induction n as [| n IH]; intros response u i l Hi Hnone Hsome; [lia |].
  cbn [recv_for uart_readline_]. destruct i as [| i].
  - rewrite Nat.add_0_r in Hsome. rewrite Hsome.
    rewrite Nat.add_1_r. reflexivity.
  - pose proof (Hnone 0%nat ltac:(lia)) as H0. rewrite Nat.add_0_r in H0.
    rewrite H0.
    rewrite (IH _ _ i l); cbn [rx reads tx].
    + rewrite Nat.add_succ_l, <- Nat.add_succ_r. reflexivity.
    + lia.
    + intros j Hj. rewrite Nat.add_succ_l, <- Nat.add_succ_r. apply Hnone. lia.
    + rewrite Nat.add_succ_l, <- Nat.add_succ_r. exact Hsome.
Qed.

(** If the loop ends without a line, every attempt was made and failed. *)
Lemma recv_for_none (n : nat) :
  forall response u u',
    recv_for n response u = (Bound None, u') ->
    (0 < n)%nat ->
    (forall i, (i < n)%nat -> rx u (reads u + i) = None) /\
    reads u' = (reads u + n)%nat.
Proof.
  induction n as [| n IH]; intros response u u' H Hn; [lia |].
  cbn [recv_for uart_readline_] in H.
  destruct (rx u (reads u)) as [l |] eqn:E; [discriminate |].
  destruct n as [| n].
  - cbn [recv_for] in H. inversion H; subst; cbn [reads]. split; [| lia].
    intros i Hi. assert (i = 0)%nat by lia. subst. rewrite Nat.add_0_r. exact E.
  - apply IH in H; [| lia]. cbn [rx reads] in H. destruct H as [H1 H2].
    split; [| lia]. intros i Hi. destruct i as [| i].
    + rewrite Nat.add_0_r. exact E.
    + rewrite Nat.add_succ_r, <- Nat.add_succ_l. apply H1. lia.
Qed.

(** The loops only advance the read counter of the UART. *)
Lemma recv_for_frame (n : nat) :
  forall response u,
    let u' := snd (recv_for n response u) in
    rx u' = rx u /\ tx u' = tx u /\ (reads u <= reads u' <= reads u + n)%nat.
Proof.
  induction n as [| n IH]; intros response u; cbn [recv_for uart_readline_].
  - cbn [snd rx tx reads]; repeat split; try reflexivity; lia.
  - destruct (rx u (reads u)).
    + cbn [snd rx tx reads]; repeat split; try reflexivity; lia.
    + specialize (IH (Bound None) (mkUART (rx u) (S (reads u)) (tx u))).
      cbn [rx reads tx] in IH. cbn zeta in *. intuition lia.
Qed.

Lemma recv_forever_frame (fuel : nat) :
  forall u,
    let u' := snd (recv_forever fuel u) in
    rx u' = rx u /\ tx u' = tx u /\ (reads u <= reads u' <= reads u + fuel)%nat.
Proof.
  induction fuel as [| n IH]; intros u; cbn [recv_forever uart_readline_].
  - cbn [snd rx tx reads]; repeat split; try reflexivity; lia.
  - destruct (rx u (reads u)).
    + cbn [snd rx tx reads]; repeat split; try reflexivity; lia.
    + specialize (IH (mkUART (rx u) (S (reads u)) (tx u))).
      cbn [rx reads tx] in IH. cbn zeta in *. intuition lia.
Qed.

Lemma same_but_reads_refl (s : session) : same_but_reads s s.
Proof. unfold same_but_reads. intuition. Qed.

Lemma same_but_reads_set_uart (s : session) (u : UART) :
  rx u = rx (uart s) -> tx u = tx (uart s) ->
  (reads (uart s) <= reads u)%nat ->
  same_but_reads s (set_uart s u).
Proof. unfold same_but_reads. cbn. intuition. Qed.

Section Receive.

Variable wait_fuel : nat.

Lemma UART_recv_frame (t : pyval) (s : session) :
  same_but_reads s (snd (UART_recv wait_fuel t s)).
Proof.
  unfold UART_recv, recv_no_timeout.
  assert (F : same_but_reads s
                (snd (match recv_forever wait_fuel (uart s) with
                      | (Some l, u) => (Ok (Some l), set_uart s u)
                      | (None, u) => (OutOfFuel, set_uart s u)
                      end))).
  { pose proof (recv_forever_frame wait_fuel (uart s)) as H. cbn zeta in H.
    destruct (recv_forever wait_fuel (uart s)) as [[l |] u]; cbn [snd] in *;
      apply same_but_reads_set_uart; intuition lia. }
  destruct t as [| t | q].
  - apply same_but_reads_refl.
  - destruct (t =? 0); [exact F |].
    pose proof (recv_for_frame (Z.to_nat (16 * t)) Unbound (uart s)) as H.
    cbn zeta in H.
    destruct (recv_for _ _ _) as [[| [l |]] u]; cbn [snd] in *;
      apply same_but_reads_set_uart; intuition lia.
  - destruct (Qeq_bool q 0); [exact F | apply same_but_reads_refl].
Qed.

Lemma recv_frame (s : session) : same_but_reads s (snd (recv wait_fuel s)).
Proof. unfold recv, bind, get. apply UART_recv_frame. Qed.

(** C4, amended.  For a positive integer number of seconds [t] the loop
    makes [16 * t] attempts: it raises the timeout exactly when all of
    them come back empty, and then it has made every one of them; it
    returns the first line that comes, right after the attempt that
    yielded it. *)
Theorem UART_recv_attempts (t : Z) (s : session) :
  0 < t ->
  let n := Z.to_nat (16 * t) in
  let u := uart s in
  ((forall i, (i < n)%nat -> rx u (reads u + i) = None) <->
   fst (UART_recv wait_fuel (VInt t) s) = Raise SprintIRR20_timeout) /\
  (fst (UART_recv wait_fuel (VInt t) s) = Raise SprintIRR20_timeout ->
   reads (uart (snd (UART_recv wait_fuel (VInt t) s))) = (reads u + n)%nat) /\
  (forall i l,
      (i < n)%nat ->
      (forall j, (j < i)%nat -> rx u (reads u + j) = None) ->
      rx u (reads u + i) = Some l ->
      UART_recv wait_fuel (VInt t) s =
      (Ok (Some l), set_uart s (mkUART (rx u) (reads u + S i) (tx u)))).
Proof.
  intros Ht n u. assert (Hn : (0 < n)%nat) by (unfold n; lia).
  unfold UART_recv. destruct (Z.eqb_spec t 0); [lia |].
  fold n. fold u.
  assert (Silent : (forall i, (i < n)%nat -> rx u (reads u + i) = None) ->
                   recv_for n Unbound u =
                   (Bound None, mkUART (rx u) (reads u + n) (tx u))).
  { intros H. rewrite recv_for_silent by exact H.
    destruct n; [lia | reflexivity]. }
  split; [split |]; [| | split].
  - intros H. rewrite Silent by exact H. reflexivity.
  - intros H. destruct (recv_for n Unbound u) as [[| [l |]] u'] eqn:E;
      cbn [fst] in H; try discriminate.
    apply recv_for_none in E; [tauto | exact Hn].
  - intros H. destruct (recv_for n Unbound u) as [[| [l |]] u'] eqn:E;
      cbn [fst] in H; try discriminate.
    apply recv_for_none in E; [| exact Hn]. cbn [snd uart set_uart]. tauto.
  - intros i l Hi Hnone Hsome.
    rewrite (recv_for_first n Unbound u i l Hi Hnone Hsome). reflexivity.
Qed.

End Receive.

(** ** Measurements *)

Lemma same_but_reads_fields (s s' : session) :
  same_but_reads s s' -> same_fields s s'.
Proof. unfold same_but_reads, same_fields. tauto. Qed.

Section Measurements.

Variable wait_fuel : nat.
Variable py_int_float : string -> outcome Z.

Abbreviation read := (read_measurement wait_fuel py_int_float).

(** Reading a measurement writes one command and changes no setting. *)
Lemma read_frame (filtered : bool) (s : session) :
  let s' := snd (read filtered s) in
  same_fields s s' /\
  tx (uart s') = tx (uart s) ++ [((if filtered then "Z" else "z") ++ CRLF)%string].
Proof.
  unfold read_measurement.
  destruct filtered;
    unfold getMostRecentFilteredCO2Measurement,
      getMostRecentUnfilteredCO2Measurement, bind, uart_write;
    match goal with
    | |- context [recv wait_fuel ?s1] =>
        pose proof (recv_frame wait_fuel s1) as F;
        destruct (recv wait_fuel s1) as [[[l |] | e |] s2]
    end; unfold same_but_reads, same_fields in *; cbn [fst snd] in *;
    unfold lift, raise; cbn [snd uart set_uart uart_write_ tx timeout
      scalingFactor compensationValue pressure digitalFilter] in *;
    intuition congruence.
Qed.

Lemma getCO2Measurement_run (filtered check : bool) (s s' : session) (raw : Z) :
  read filtered s = (Ok raw, s') ->
  getCO2Measurement wait_fuel py_int_float filtered check s =
  if raw <? 0 then (Ok (-1), s')
  else if check && (10050 <? raw * scalingFactor s')
       then correctMeasurement (raw * scalingFactor s') s'
       else (Ok (raw * scalingFactor s'), s').
Proof.
  intros H. unfold getCO2Measurement, bind. unfold read_measurement in H.
  destruct filtered; rewrite H; destruct (raw <? 0); try reflexivity;
    unfold get, ret; rewrite PPMtoPercentage_above_one;
    destruct (check && _); reflexivity.
Qed.

(** C1, amended.  When the raw reading is negative the result is [-1];
    when it is non-negative, the scaling factor is positive and no
    correction is applied (it is not asked for, or the scaled value is at
    most 10050), the result is the scaled value, which is non-negative,
    and positive exactly when the raw reading is. *)
Theorem getCO2Measurement_sentinel_or_scaled
    (filtered check : bool) (s s' : session) (raw : Z) :
  read filtered s = (Ok raw, s') ->
  (raw < 0 ->
   getCO2Measurement wait_fuel py_int_float filtered check s = (Ok (-1), s')) /\
  (0 <= raw -> 0 < scalingFactor s ->
   check = false \/ raw * scalingFactor s <= 10050 ->
   getCO2Measurement wait_fuel py_int_float filtered check s =
   (Ok (raw * scalingFactor s), s') /\
   0 <= raw * scalingFactor s /\
   (0 < raw * scalingFactor s <-> 0 < raw)).
Proof.
  intros H. rewrite (getCO2Measurement_run filtered check s s' raw H).
  pose proof (read_frame filtered s) as [F _]. rewrite H in F.
  cbn [snd] in F. destruct F as (_ & Fsf & _). rewrite Fsf.
  split.
  - intros Hneg. destruct (Z.ltb_spec raw 0); [reflexivity | lia].
  - intros Hraw Hsf Hno. destruct (Z.ltb_spec raw 0); [lia |].
    split; [| split; [nia | nia]].
    destruct Hno as [-> | Hle]; [reflexivity |].
    destruct (Z.ltb_spec 10050 (raw * scalingFactor s)); [lia |].
    rewrite andb_false_r. reflexivity.
Qed.

(** C2, amended.  With the correction asked for, a non-negative raw
    reading and a positive scaling factor, the percentage exceeds 1.0 (it
    is cut to two decimals first) exactly when the scaled value is above
    10050 ppm: then the result is that of [correctMeasurement], otherwise
    it is the scaled value unchanged. *)
Theorem getCO2Measurement_correction_threshold
    (filtered : bool) (s s' : session) (raw : Z) :
  read filtered s = (Ok raw, s') ->
  0 <= raw -> 0 < scalingFactor s ->
  let ppm := raw * scalingFactor s in
  (Qgtb (PPMtoPercentage ppm) 1.0 = true <-> 10050 < ppm) /\
  (10050 < ppm ->
   getCO2Measurement wait_fuel py_int_float filtered true s =
   correctMeasurement ppm s') /\
  (ppm <= 10050 ->
   getCO2Measurement wait_fuel py_int_float filtered true s = (Ok ppm, s')).
Proof.
  intros H Hraw Hsf ppm.
  rewrite (getCO2Measurement_run filtered true s s' raw H).
  pose proof (read_frame filtered s) as [F _]. rewrite H in F.
  cbn [snd] in F. destruct F as (_ & Fsf & _). rewrite Fsf. fold ppm.
  rewrite PPMtoPercentage_above_one.
  destruct (Z.ltb_spec raw 0); [lia |]. cbn [andb].
  destruct (Z.ltb_spec 10050 ppm); repeat split; intros; try lia;
    try discriminate; reflexivity.
Qed.

End Measurements.

(** ** Commands that are checked against their echo *)

(** Unfold the plumbing of a method, keeping the calls to [recv]. *)
Ltac mrun :=
  cbv [bind ret lift get raise modify uart_write none_or_not_positive is_None
       positive py_gt py_eq py_truediv py_int_of subscript subscript_from
       decode_slice decode_from];
  cbn beta iota zeta.

Lemma int_of_float_div (a b : Z) :
  b <> 0 -> int_of_float (inject_Z a / inject_Z b)%Q = Z.quot a b.
Proof.
  intros Hb. unfold int_of_float, Qdiv, Qmult, Qinv, inject_Z. cbn [Qnum Qden].
  destruct b as [| p | p]; [congruence | |]; cbn [Qnum Qden].
  - rewrite Z.mul_1_r, Pos.mul_1_l. reflexivity.
  - rewrite Pos.mul_1_l.
    change (Z.neg p) with (- Z.pos p). rewrite Z.quot_opp_r by lia.
    rewrite <- Z.quot_opp_l by lia. f_equal. lia.
Qed.

Lemma float_div_nonzero (a : Q) (b : Z) :
  b <> 0 -> float_div a (inject_Z b) = Ok (a / inject_Z b)%Q.
Proof.
  intros Hb. unfold float_div.
  destruct (Qeq_bool (inject_Z b) 0) eqn:E; [| reflexivity].
  apply Qeq_bool_iff in E. q2z_in E. lia.
Qed.

Section Setters.

Variable wait_fuel : nat.
Variable py_str_float : Q -> string.

Abbreviation recv' := (recv wait_fuel).
Abbreviation format5 := (formatArgument5digits py_str_float).

(** Write a command, wait for the line, drop its first character, decode
    and compare with the command: the shape shared by the setters. *)
Lemma echo_run {A : Type} (command : string) (k : M A) (s : session) :
  (uart_write command ;;;
   r <- recv' ;;
   result <- decode_from 1 r ;;
   if negb (String.eqb result command)
   then raise SprintIRR20_unexpected_reply
   else k) s =
  match recv' (written command s) with
  | (Ok (Some l), s2) =>
      match decode (slice_from 1 l) with
      | Ok result =>
          if String.eqb result command then k s2
          else (Raise SprintIRR20_unexpected_reply, s2)
      | Raise e => (Raise e, s2)
      | OutOfFuel => (OutOfFuel, s2)
      end
  | (Ok None, s2) => (Raise TypeError, s2)
  | (Raise e, s2) => (Raise e, s2)
  | (OutOfFuel, s2) => (OutOfFuel, s2)
  end.
Proof.
  unfold bind, uart_write, written, decode_from, bind.
  destruct (recv' _) as [[[l |] | e |] s2]; try reflexivity.
  cbn [subscript_from ret]. unfold ret, lift.
  destruct (decode (slice_from 1 l)) as [result | e |]; try reflexivity.
  destruct (String.eqb result command); reflexivity.
Qed.

Lemma echo_run_utf8 {A : Type} (command : string) (k : M A) (s : session) :
  (uart_write command ;;;
   r <- recv' ;;
   result <- decode_from 1 r ;;
   if negb (String.eqb result command)
   then raise SprintIRR20_unexpected_reply
   else k) s =
  match recv' (written command s) with
  | (Ok (Some l), s2) =>
      if valid_utf8 (slice_from 1 l) then
        if String.eqb (slice_from 1 l) command then k s2
        else (Raise SprintIRR20_unexpected_reply, s2)
      else (Raise UnicodeDecodeError, s2)
  | (Ok None, s2) => (Raise TypeError, s2)
  | (Raise e, s2) => (Raise e, s2)
  | (OutOfFuel, s2) => (OutOfFuel, s2)
  end.
Proof.
  rewrite echo_run.
  destruct (recv' _) as [[[l |] | e |] s2]; try reflexivity.
  unfold decode. destruct (valid_utf8 _); reflexivity.
Qed.

Lemma written_frame (command : string) (s : session) :
  let s2 := snd (recv' (written command s)) in
  same_fields s s2 /\ tx (uart s2) = tx (uart s) ++ [command].
Proof.
  pose proof (recv_frame wait_fuel (written command s)) as F.
  unfold same_but_reads, same_fields, written in *.
  cbn [uart set_uart uart_write_ tx timeout scalingFactor compensationValue
         pressure digitalFilter] in *.
  cbn zeta. intuition congruence.
Qed.

(** *** setDigitalFilter *)

Lemma setDigitalFilter_accepts (v : Z) (s : session) :
  1 <= v <= 65635 ->
  setDigitalFilter wait_fuel py_str_float (VInt v) s =
  let command := ("A " ++ format5 (VInt v) ++ CRLF)%string in
  match recv' (written command s) with
  | (Ok (Some l), s2) =>
      match decode (slice_from 1 l) with
      | Ok result =>
          if String.eqb result command then (Ok 0, s2)
          else (Raise SprintIRR20_unexpected_reply, s2)
      | Raise e => (Raise e, s2)
      | OutOfFuel => (OutOfFuel, s2)
      end
  | (Ok None, s2) => (Raise TypeError, s2)
  | (Raise e, s2) => (Raise e, s2)
  | (OutOfFuel, s2) => (OutOfFuel, s2)
  end.
Proof.
  intros H. unfold setDigitalFilter.
  unfold bind at 1. cbn [is_None py_gt positive py_eq lift].
  unfold bind at 1. unfold lift at 1.
  destruct (Z.ltb_spec 65635 v); [lia |].
  unfold bind at 1. unfold lift at 1.
  destruct (Z.ltb_spec 0 v); [| lia]. cbn [negb]. unfold ret at 1.
  destruct (Z.eqb_spec v 0); [lia |].
  rewrite echo_run. reflexivity.
Qed.

(** *** setPressureAndCompensationValue *)


End Setters.

(** ** Zero-point fine tuning *)

Section FineTune.

Variable wait_fuel : nat.

(** With a positive first argument and an [int] second argument the
    validation passes whatever the second argument is; both are scaled
    and the command is written. *)
Lemma fineTuneZeroPoint_unvalidated (r c : Z) (s : session) :
  0 < r -> scalingFactor s <> 0 ->
  fineTuneZeroPoint wait_fuel (VInt r) (VInt c) s =
  let command :=
    ("F " ++ str_int (Z.quot r (scalingFactor s)) ++ " "
       ++ str_int (Z.quot c (scalingFactor s)) ++ CRLF)%string in
  match recv wait_fuel (written command s) with
  | (Ok (Some l), s2) =>
      match decode (slice_from 1 l) with
      | Ok _ => (Ok 0, s2)
      | Raise e => (Raise e, s2)
      | OutOfFuel => (OutOfFuel, s2)
      end
  | (Ok None, s2) => (Raise TypeError, s2)
  | (Raise e, s2) => (Raise e, s2)
  | (OutOfFuel, s2) => (OutOfFuel, s2)
  end.
Proof.
  intros Hr Hsf.
  assert (E : (0 <? r) = true) by (apply Z.ltb_lt; exact Hr).
  unfold fineTuneZeroPoint, written. mrun. rewrite E. cbn [negb].
  rewrite !float_div_nonzero by exact Hsf.
  rewrite !int_of_float_div by exact Hsf.
  destruct (recv wait_fuel _) as [[[l |] | e |] s2]; reflexivity.
Qed.

(** C10, amended.  [fineTuneZeroPoint] checks only [known_reading].  With
    a positive [known_reading] and a non-positive [known_concentration]
    the call is not turned down with [-1]: both values are scaled and the
    command that carries them is written.  With [known_concentration]
    missing the call is not turned down with [-1] either, but scaling
    [None] raises [TypeError] before anything is written. *)
Theorem fineTuneZeroPoint_checks_first_only (r c : Z) (s : session) :
  0 < r -> c <= 0 -> scalingFactor s <> 0 ->
  let run := fineTuneZeroPoint wait_fuel (VInt r) (VInt c) s in
  fst run <> Ok (-1) /\
  tx (uart (snd run)) =
  tx (uart s) ++
  [("F " ++ str_int (Z.quot r (scalingFactor s)) ++ " "
      ++ str_int (Z.quot c (scalingFactor s)) ++ CRLF)%string] /\
  fineTuneZeroPoint wait_fuel (VInt r) VNone s = (Raise TypeError, s).
Proof.
  intros Hr Hc Hsf run. unfold run.
  rewrite fineTuneZeroPoint_unvalidated by assumption. cbn zeta.
  match goal with
  | |- context [written ?cmd s] =>
      pose proof (written_frame wait_fuel cmd s) as [_ F]
  end.
  cbn zeta in F.
  split; [| split].
  - destruct (recv wait_fuel _) as [[[l |] | e |] s2]; cbn [fst];
      try discriminate.
    destruct (decode (slice_from 1 l)); cbn [fst]; discriminate.
  - destruct (recv wait_fuel _) as [[[l |] | e |] s2]; cbn [snd] in *;
      try exact F.
    destruct (decode (slice_from 1 l)); exact F.
  - assert (E : (0 <? r) = true) by (apply Z.ltb_lt; exact Hr).
    unfold fineTuneZeroPoint. mrun. rewrite E. cbn [negb].
    rewrite float_div_nonzero by exact Hsf. reflexivity.
Qed.

End FineTune.

(** ** Worked runs *)

Open Scope string_scope.

(** C1, witness: a raw reading of 450 with scaling factor 1 and no
    correction due. *)
Lemma getCO2Measurement_sentinel_or_scaled_witness :
  let s := session_with 1 8192 [reply "z 00450"] in
  fst (getCO2Measurement 0 int_of_field false true s) = Ok (450 * 1) /\
  0 <= 450 * 1.
Proof.
  intros s.
  pose proof (getCO2Measurement_sentinel_or_scaled 0 int_of_field false true s
                (snd (read_measurement 0 int_of_field false s)) 450 eq_refl)
    as [_ H].
  destruct (H ltac:(lia) ltac:(reflexivity) ltac:(right; vm_compute; discriminate))
    as (H1 & H2 & _).
  split; [rewrite H1; reflexivity | exact H2].
Defined.

(** C1, counterexample: a raw reading of 0 is valid and non-negative, the
    scaling factor is positive, and the result is 0, which is not
    positive. *)
Lemma getCO2Measurement_zero_reading :
  let s := session_with 1 8192 [reply "z 00000"] in
  fst (read_measurement 0 int_of_field false s) = Ok 0 /\
  0 < scalingFactor s /\
  fst (getCO2Measurement 0 int_of_field false true s) = Ok 0 /\
  ~ (exists v, fst (getCO2Measurement 0 int_of_field false true s) = Ok v /\ 0 < v).
Proof.
  cbn zeta. repeat split; try reflexivity.
  intros [v [H Hv]]. vm_compute in H. inversion H. lia.
Qed.

(** C2, witness: scaling factor 1, raw unfiltered reading 450, correction
    asked for; 450 is returned as it is. *)
Lemma getCO2Measurement_correction_threshold_witness :
  let s := session_with 1 8192 [reply "z 00450"] in
  getCO2Measurement 0 int_of_field false true s =
  (Ok 450, snd (read_measurement 0 int_of_field false s)).
Proof.
  intros s.
  pose proof (getCO2Measurement_correction_threshold 0 int_of_field false s
                (snd (read_measurement 0 int_of_field false s)) 450 eq_refl
                ltac:(lia) ltac:(reflexivity)) as (_ & _ & H).
  apply H. vm_compute. discriminate.
Defined.

(** C2, counterexample: a scaled value of 10001 ppm is above 10000, yet its
    percentage reads 1.00 and the value comes back unchanged, while the
    correction would have turned it into 551. *)
Lemma getCO2Measurement_uncorrected_above_10000 :
  let s := session_with 1 9000 [reply "z 10001"] in
  fst (read_measurement 0 int_of_field false s) = Ok 10001 /\
  10000 < 10001 * scalingFactor s /\
  Qgtb (PPMtoPercentage (10001 * scalingFactor s)) 1.0 = false /\
  fst (getCO2Measurement 0 int_of_field false true s) = Ok 10001 /\
  corrected_value 10001 (pressure s) = Ok 551.
Proof. cbn zeta. repeat split; vm_compute; reflexivity. Qed.

(** C4, witness: a one-second timeout on a silent line. *)
Lemma UART_recv_attempts_witness :
  let s := session_with 1 8192 [] in
  fst (UART_recv 0 (VInt 1) s) = Raise SprintIRR20_timeout /\
  reads (uart (snd (UART_recv 0 (VInt 1) s))) = 16%nat.
Proof.
  intros s.
  pose proof (UART_recv_attempts 0 1 s ltac:(lia)) as (H1 & H2 & _).
  assert (H : fst (UART_recv 0 (VInt 1) s) = Raise SprintIRR20_timeout).
  { apply H1. intros i _. destruct i; reflexivity. }
  split; [exact H | exact (H2 H)].
Defined.

(** C4, counterexample: half a second is a positive timeout and
    [ceil(16 * 0.5)] is 8, but [range] does not take the float [8.0]: the
    call raises [TypeError] and no attempt is made. *)
Lemma UART_recv_fractional_timeout :
  let s := mkSession (uart_of_lines []) (VFloat 0.5) 1 8192 1013 16 in
  (0 < 0.5)%Q /\ Qceiling (16 * 0.5) = 8 /\
  UART_recv 0 (timeout s) s = (Raise TypeError, s) /\
  reads (uart (snd (UART_recv 0 (timeout s) s))) = 0%nat.
Proof. cbn zeta. repeat split. Qed.

(** C5.  Background 400 ppm with scaling factor 1: the two commands are
    [P 00008 00001] and [P 00009 00144], the sensor echoes both, and the
    call raises [SprintIRR20_unexpected_reply]: the second reply is cut to
    its characters 9 to 13 before it is compared with the whole command. *)
Theorem setBackgroundPPMAutozeroing_echo_rejected :
  let s := session_with 1 8192 [reply "P 00008 00001"; reply "P 00009 00144"] in
  let run := setBackgroundPPMAutozeroing 0 str_of_integral_float (VInt 400) s in
  tx (uart (snd run)) = ["P 00008 00001" ++ CRLF; "P 00009 00144" ++ CRLF] /\
  fst run = Raise SprintIRR20_unexpected_reply.
Proof. cbn zeta. split; vm_compute; reflexivity. Qed.

(** The sibling for the fresh-air background compares the whole echo and
    succeeds on the same exchange. *)
Lemma setBackgroundPPMFreshAir_echo_accepted :
  let s := session_with 1 8192 [reply "P 00010 00001"; reply "P 00011 00144"] in
  let run := setBackgroundPPMFreshAir 0 str_of_integral_float (VInt 400) s in
  tx (uart (snd run)) = ["P 00010 00001" ++ CRLF; "P 00011 00144" ++ CRLF] /\
  fst run = Ok 0.
Proof. cbn zeta. split; vm_compute; reflexivity. Qed.

(** C6.  At 800 mbar the round trip gives 983 mbar, 183 away: the second
    conversion leaves out the factor 0.14 of the first. *)
Theorem compensation_round_trip_800 :
  pressureToCompensation 800 = 10634 /\
  compensationToPressure (pressureToCompensation 800) = 983 /\
  1 < Z.abs (compensationToPressure (pressureToCompensation 800) - 800).
Proof. repeat split; vm_compute; reflexivity. Qed.


(** Three commands miss the token where their siblings use it.  The manual
    zero point and the zero point in a known gas divide by the scaling
    factor and encode the quotient without taking its integer part as the
    background commands do: the argument is the float [400.0], padded to
    [00400.0], seven characters. *)
Lemma zeroPointManualSetting_float_argument :
  let s := session_with 1 8192 [reply "u 00400.0"] in
  let run := zeroPointManualSetting 0 str_of_integral_float (VInt 400) s in
  fst run = Ok 0 /\ tx (uart (snd run)) = ["u 00400.0" ++ CRLF].
Proof. cbn zeta. split; vm_compute; reflexivity. Qed.

Lemma zeroPointKnownGas_float_argument :
  let s := session_with 1 8192 [reply "X 32950"] in
  let run := zeroPointKnownGas 0 str_of_integral_float (VInt 400) s in
  fst run = Ok 0 /\ tx (uart (snd run)) = ["X 00400.0" ++ CRLF].
Proof. cbn zeta. split; vm_compute; reflexivity. Qed.

(** The fine tuning takes the integer parts and writes them with [str],
    without padding. *)
Lemma fineTuneZeroPoint_unpadded_arguments :
  let s := session_with 1 8192 [reply "F 33000"] in
  let run := fineTuneZeroPoint 0 (VInt 400) (VInt 410) s in
  fst run = Ok 0 /\ tx (uart (snd run)) = ["F 400 410" ++ CRLF].
Proof. cbn zeta. split; vm_compute; reflexivity. Qed.

(** C8.  After start-up the pressure is the one of the compensation value.
    A confirmed [setPressureAndCompensationValue(9000)] stores 9000 and
    leaves the pressure at 1013, while 9000 stands for 1003 mbar. *)
Theorem setPressureAndCompensationValue_stale_pressure :
  let s := session_with 1 8192 [reply "S 09000"] in
  let run := setPressureAndCompensationValue 0 str_of_integral_float (VInt 9000) s in
  pressure s = compensationToPressure (compensationValue s) /\
  fst run = Ok 0 /\
  compensationValue (snd run) = 9000 /\
  pressure (snd run) = 1013 /\
  compensationToPressure (compensationValue (snd run)) = 1003.
Proof. cbn zeta. repeat split; vm_compute; reflexivity. Qed.

(** C9.  65536 is above the documented range of 1 to 65535, yet it is not
    turned down: the command is written and, once echoed, the call returns
    0.  The bound tested is 65635. *)
Theorem setDigitalFilter_accepts_65536 :
  let s := session_with 1 8192 [reply "A 65536"] in
  let run := setDigitalFilter 0 str_of_integral_float (VInt 65536) s in
  65535 < 65536 /\
  tx (uart (snd run)) = ["A 65536" ++ CRLF] /\
  fst run = Ok 0.
Proof. cbn zeta. repeat split; vm_compute; reflexivity. Qed.

(** C10, witness: a reading of 400 with a concentration of -5. *)
Lemma fineTuneZeroPoint_checks_first_only_witness :
  let s := session_with 1 8192 [reply "F 400 -5"] in
  fst (fineTuneZeroPoint 0 (VInt 400) (VInt (-5)) s) <> Ok (-1) /\
  tx (uart (snd (fineTuneZeroPoint 0 (VInt 400) (VInt (-5)) s))) =
  ["F 400 -5" ++ CRLF].
Proof.
  intros s.
  destruct (fineTuneZeroPoint_checks_first_only 0 400 (-5) s
              ltac:(lia) ltac:(lia) ltac:(vm_compute; discriminate))
    as (H1 & H2 & _).
  split; [exact H1 | rewrite H2; reflexivity].
Defined.

(** C10, counterexample: with [known_concentration] missing nothing is
    scaled and nothing is sent; the call raises [TypeError]. *)
Lemma fineTuneZeroPoint_missing_concentration :
  let s := session_with 1 8192 [reply "F 400 0"] in
  let run := fineTuneZeroPoint 0 (VInt 400) VNone s in
  fst run = Raise TypeError /\ tx (uart (snd run)) = [] /\
  reads (uart (snd run)) = 0%nat.
Proof. cbn zeta. repeat split. Qed.

(** ** The same computations in binary64 *)

Example binary64_round_trip_800 :
  Binary64.pressureToCompensation 800 = Some (pressureToCompensation 800) /\
  Binary64.compensationToPressure 10634 = Some (compensationToPressure 10634).
Proof. split; vm_compute; reflexivity. Qed.

Example binary64_stale_pressure :
  Binary64.compensationToPressure 9000 = Some (compensationToPressure 9000) /\
  Binary64.compensationToPressure 8192 = Some (compensationToPressure 8192).
Proof. split; vm_compute; reflexivity. Qed.

Example binary64_correction_threshold :
  Binary64.percentage_above_one 450 = Some false /\
  Binary64.percentage_above_one 10001 = Some false /\
  Binary64.percentage_above_one 10050 = Some false /\
  Binary64.percentage_above_one 10051 = Some true.
Proof. repeat split; vm_compute; reflexivity. Qed.

Example binary64_msb_lsb : Binary64.msb_lsb 400 1 = Some (1, 144).
Proof. vm_compute. reflexivity. Qed.

(** * Further properties of the driver *)

Close Scope string_scope.

(** ** Counting digits *)

Lemma count_digits_zero (fuel : nat) (count : Z) :
  count_digits fuel 0 count = count.
Proof. destruct fuel; reflexivity. Qed.

Lemma count_digits_decimal (fuel : nat) :
  forall n count,
    0 < n < 2 ^ Z.of_nat fuel ->
    let d := count_digits fuel n count - count in
    1 <= d /\ 10 ^ (d - 1) <= n < 10 ^ d.
Proof.
  induction fuel as [| f IH]; intros n count Hn; [simpl in Hn; lia |].
  cbn zeta. cbn [count_digits].
  destruct (Z.ltb_spec 0 n) as [_ | ?]; [| lia].
  destruct (Z.ltb_spec n 10) as [Hlt | Hge].
  - rewrite Z.div_small by lia. rewrite count_digits_zero.
    replace (count + 1 - count) with 1 by lia. cbn. lia.
  - assert (Hq : 0 < n / 10) by (apply Z.div_str_pos; lia).
    pose proof (tenth_bound f n ltac:(lia)) as Hb.
    specialize (IH (n / 10) (count + 1) ltac:(lia)). cbn zeta in IH.
    set (d' := count_digits f (n / 10) (count + 1) - (count + 1)) in *.
    replace (count_digits f (n / 10) (count + 1) - count) with (d' + 1) by lia.
    destruct IH as [Hd [Hlo Hhi]].
    replace (d' + 1 - 1) with (Z.succ (d' - 1)) by lia.
    replace (d' + 1) with (Z.succ d') at 2 by lia.
    rewrite !Z.pow_succ_r by lia.
    pose proof (Z.div_mod n 10 ltac:(lia)).
    pose proof (Z.mod_pos_bound n 10 ltac:(lia)).
    lia.
Qed.

Lemma numberOfDigits_positive (n : Z) :
  0 < n ->
  1 <= numberOfDigits (VInt n) /\
  10 ^ (numberOfDigits (VInt n) - 1) <= n < 10 ^ numberOfDigits (VInt n).
Proof.
  intros H. unfold numberOfDigits. destruct (Z.eqb_spec n 0); [lia |].
  pose proof (count_digits_decimal (loop_fuel n) n 0
                (conj H (loop_fuel_bound n ltac:(lia)))) as D.
  cbn zeta in D. rewrite Z.sub_0_r in D. exact D.
Qed.

Lemma numberOfDigits_negative (n : Z) : n < 0 -> numberOfDigits (VInt n) = 0.
Proof.
  intros H. unfold numberOfDigits, loop_fuel.
  destruct (Z.eqb_spec n 0); [lia |]. cbn [count_digits].
  destruct (Z.ltb_spec 0 n); [lia | reflexivity].
Qed.

(** X1.  On a positive [int], [numberOfDigits] is the number [d] of
    decimal digits: [10^(d-1) <= n < 10^d].  On a negative [int] the loop
    does not run and the result is 0. *)
Theorem numberOfDigits_decimal (n : Z) :
  (0 < n ->
   1 <= numberOfDigits (VInt n) /\
   10 ^ (numberOfDigits (VInt n) - 1) <= n < 10 ^ numberOfDigits (VInt n)) /\
  (n < 0 -> numberOfDigits (VInt n) = 0).
Proof.
  split.
  - intros H. destruct (numberOfDigits_positive n H) as [H1 H2].
    split; assumption.
  - intros H. rewrite numberOfDigits_negative by exact H. reflexivity.
Qed.

Lemma numberOfDigits_decimal_witness :
  10 ^ (numberOfDigits (VInt 400) - 1) <= 400 < 10 ^ numberOfDigits (VInt 400) /\
  numberOfDigits (VInt (-7)) = 0.
Proof.
  split.
  - apply (proj1 (numberOfDigits_decimal 400)). lia.
  - apply (proj2 (numberOfDigits_decimal (-7))). lia.
Defined.

Section FormatEdges.

Variable py_str_float : Q -> string.

(** X2.  Outside [0, 99999] an [int] is not padded: the encoding is
    [str(value)] as it is, longer than five characters above 99999 and
    carrying its minus sign below 0. *)
Theorem formatArgument5digits_unpadded (v : Z) :
  (99999 < v ->
   formatArgument5digits py_str_float (VInt v) = str_int v /\
   (5 < String.length (str_int v))%nat) /\
  (v < 0 -> formatArgument5digits py_str_float (VInt v) = str_int v).
Proof.
  split; intros H.
  - destruct (numberOfDigits_positive v ltac:(lia)) as [Hd [Hlo Hhi]].
    pose proof (numberOfDigits_length v ltac:(lia)) as Hlen.
    assert (Hd6 : 6 <= numberOfDigits (VInt v)).
    { destruct (Z.le_gt_cases 6 (numberOfDigits (VInt v))) as [|Hsmall];
        [assumption |].
      assert (10 ^ numberOfDigits (VInt v) <= 10 ^ 5)
        by (apply Z.pow_le_mono_r; lia).
      change (10 ^ 5) with 100000 in *. lia. }
    split; [| lia].
    unfold formatArgument5digits, py_str.
    repeat (match goal with
            | |- context [numberOfDigits (VInt v) =? ?k] =>
                destruct (Z.eqb_spec (numberOfDigits (VInt v)) k); [lia |]
            end).
    reflexivity.
  - pose proof (numberOfDigits_negative v H) as Hd.
    unfold formatArgument5digits, py_str. rewrite Hd. reflexivity.
Qed.

End FormatEdges.

Lemma formatArgument5digits_unpadded_witness :
  formatArgument5digits str_of_integral_float (VInt 123456) = "123456"%string /\
  formatArgument5digits str_of_integral_float (VInt (-5)) = "-5"%string.
Proof.
  split.
  - destruct (proj1 (formatArgument5digits_unpadded str_of_integral_float 123456)
                ltac:(lia)) as [H _].
    rewrite H. reflexivity.
  - rewrite (proj2 (formatArgument5digits_unpadded str_of_integral_float (-5)))
      by lia.
    reflexivity.
Defined.

(** ** The receive loop, continued *)

Lemma recv_forever_first (fuel : nat) :
  forall u i l,
    (i < fuel)%nat ->
    (forall j, (j < i)%nat -> rx u (reads u + j) = None) ->
    rx u (reads u + i) = Some l ->
    recv_forever fuel u = (Some l, mkUART (rx u) (reads u + S i) (tx u)).
Proof.
  induction fuel as [| n IH]; intros u i l Hi Hnone Hsome; [lia |].
  cbn [recv_forever uart_readline_]. destruct i as [| i].
  - rewrite Nat.add_0_r in Hsome. rewrite Hsome.
    rewrite Nat.add_1_r. reflexivity.
  - pose proof (Hnone 0%nat ltac:(lia)) as H0. rewrite Nat.add_0_r in H0.
    rewrite H0.
    rewrite (IH _ i l); cbn [rx reads tx].
    + rewrite Nat.add_succ_l, <- Nat.add_succ_r. reflexivity.
    + lia.
    + intros j Hj. rewrite Nat.add_succ_l, <- Nat.add_succ_r. apply Hnone. lia.
    + rewrite Nat.add_succ_l, <- Nat.add_succ_r. exact Hsome.
Qed.

Section ReceiveEdges.

Variable wait_fuel : nat.

(** X3.  Without a timeout ([timeout = 0]) the loop has no bound on its
    attempts: it returns the first line that comes, whichever attempt
    brings it, and has asked for no line after that one. *)
Theorem UART_recv_no_timeout_returns_line (i : nat) (l : string) (s : session) :
  (i < wait_fuel)%nat ->
  first_line_at i l s ->
  UART_recv wait_fuel (VInt 0) s = (Ok (Some l), advance (S i) s).
Proof.
  intros Hi [Hnone Hsome]. unfold UART_recv, recv_no_timeout, advance.
  cbn [Z.eqb].
  rewrite (recv_forever_first wait_fuel (uart s) i l Hi Hnone Hsome).
  reflexivity.
Qed.

(** X4.  A negative timeout makes [range] empty: no line is asked for and
    the test on [response], which was never assigned, raises
    [UnboundLocalError]. *)
Theorem UART_recv_negative_timeout (t : Z) (s : session) :
  t < 0 ->
  fst (UART_recv wait_fuel (VInt t) s) = Raise UnboundLocalError /\
  uart (snd (UART_recv wait_fuel (VInt t) s)) = uart s.
Proof.
  intros Ht. unfold UART_recv. destruct (Z.eqb_spec t 0); [lia |].
  replace (Z.to_nat (16 * t)) with 0%nat by lia.
  cbn [recv_for fst snd set_uart uart]. split; reflexivity.
Qed.

(** A line within the attempts of a positive integer timeout is returned
    by [recv]; silence for all of them raises the timeout. *)
Lemma recv_line (t : Z) (i : nat) (l : string) (s : session) :
  timeout s = VInt t -> 0 < t -> (i < Z.to_nat (16 * t))%nat ->
  first_line_at i l s ->
  recv wait_fuel s = (Ok (Some l), advance (S i) s).
Proof.
  intros Ht Hpos Hi [Hnone Hsome]. unfold recv, bind, get. rewrite Ht.
  unfold UART_recv. destruct (Z.eqb_spec t 0); [lia |].
  rewrite (recv_for_first _ Unbound (uart s) i l Hi Hnone Hsome).
  reflexivity.
Qed.

Lemma recv_silent (t : Z) (s : session) :
  timeout s = VInt t -> 0 < t -> silent_for (Z.to_nat (16 * t)) s ->
  recv wait_fuel s = (Raise SprintIRR20_timeout, advance (Z.to_nat (16 * t)) s).
Proof.
  intros Ht Hpos Hsilent. unfold recv, bind, get. rewrite Ht.
  unfold UART_recv. destruct (Z.eqb_spec t 0); [lia |].
  rewrite recv_for_silent by exact Hsilent.
  destruct (Z.to_nat (16 * t)) eqn:E; [lia | reflexivity].
Qed.

End ReceiveEdges.

Lemma UART_recv_no_timeout_returns_line_witness :
  fst (UART_recv 40 (VInt 0)
         (mkSession
            (uart_of_lines (repeat None 20 ++ [reply "z 00450"]))
            (VInt 0) 1 8192 1013 16))
  = Ok (reply "z 00450").
Proof.
  rewrite (UART_recv_no_timeout_returns_line 40 20
             (String " "%char ("z 00450" ++ CRLF)) _ ltac:(lia)).
  - reflexivity.
  - split; [| reflexivity].
    intros j Hj. do 20 (destruct j as [| j]; [reflexivity |]). lia.
Defined.

Lemma UART_recv_negative_timeout_witness :
  fst (UART_recv 0 (VInt (-1)) (session_with 1 8192 [reply "z 00450"]))
  = Raise UnboundLocalError.
Proof.
  apply (UART_recv_negative_timeout 0 (-1)). lia.
Defined.

(** ** Setters, continued *)

Lemma written_first_line (command : string) (i : nat) (l : string) (s : session) :
  first_line_at i l s -> first_line_at i l (written command s).
Proof. intros H. exact H. Qed.

Lemma written_silent (command : string) (n : nat) (s : session) :
  silent_for n s -> silent_for n (written command s).
Proof. intros H. exact H. Qed.

Lemma substring_length_le (n m : nat) (s : string) :
  (String.length (substring n m s) <= m)%nat.
Proof.
  revert n m. induction s as [| c s IH]; intros n m.
  - destruct n, m; cbn; lia.
  - destruct n as [| n].
    + destruct m as [| m]; cbn; [lia |]. specialize (IH 0%nat m). lia.
    + cbn. apply IH.
Qed.

Lemma eqb_length (a b : string) :
  String.eqb a b = true -> String.length a = String.length b.
Proof. intros H. apply String.eqb_eq in H. subst. reflexivity. Qed.

Section SettersEdges.

Variable wait_fuel : nat.
Variable py_str_float : Q -> string.

Abbreviation format5' := (formatArgument5digits py_str_float).

(** X5.  [setDigitalFilter] turns down [None], every [int] that is zero or
    negative and every [int] above 65635: it returns [-1] and the session,
    UART included, is untouched. *)
Theorem setDigitalFilter_rejects (s : session) :
  setDigitalFilter wait_fuel py_str_float VNone s = (Ok (-1), s) /\
  (forall v, v <= 0 \/ 65635 < v ->
             setDigitalFilter wait_fuel py_str_float (VInt v) s = (Ok (-1), s)).
Proof.
  split; [reflexivity |]. intros v Hv. unfold setDigitalFilter. mrun.
  destruct (Z.ltb_spec 65635 v); [reflexivity |].
  destruct (Z.ltb_spec 0 v); [| reflexivity]. cbn [negb].
  destruct (Z.eqb_spec v 0); [reflexivity | lia].
Qed.

(** X6.  For a filter value in [1, 65635] and a positive integer timeout
    [t]: the command [A <token>] is written; if the first line comes
    within [16 * t] attempts, what follows its first character is decoded,
    and the call returns 0 when that is the command, raises
    [SprintIRR20_unexpected_reply] when it is any other text, and raises
    [UnicodeDecodeError] when it is not well-formed UTF-8; if no line
    comes it raises [SprintIRR20_timeout] after [16 * t] attempts. *)
Theorem setDigitalFilter_echo (v t : Z) (s : session) :
  1 <= v <= 65635 -> timeout s = VInt t -> 0 < t ->
  let command := ("A " ++ format5' (VInt v) ++ CRLF)%string in
  let n := Z.to_nat (16 * t) in
  (forall i l, (i < n)%nat -> first_line_at i l s ->
     setDigitalFilter wait_fuel py_str_float (VInt v) s =
     (if valid_utf8 (slice_from 1 l)
      then if String.eqb (slice_from 1 l) command then Ok 0
           else Raise SprintIRR20_unexpected_reply
      else Raise UnicodeDecodeError,
      advance (S i) (written command s))) /\
  (silent_for n s ->
     setDigitalFilter wait_fuel py_str_float (VInt v) s =
     (Raise SprintIRR20_timeout, advance n (written command s))).
Proof.
  intros Hv Ht Hpos command n.
  rewrite setDigitalFilter_accepts by exact Hv. cbn zeta. fold command.
  split.
  - intros i l Hi Hl.
    rewrite (recv_line wait_fuel t i l (written command s) Ht Hpos Hi
               (written_first_line command i l s Hl)).
    unfold decode. destruct (valid_utf8 _); [| reflexivity].
    destruct (String.eqb _ _); reflexivity.
  - intros Hs.
    rewrite (recv_silent wait_fuel t (written command s) Ht Hpos
               (written_silent command _ s Hs)).
    reflexivity.
Qed.

Lemma setPressureAndCompensationValue_run (value : pyval) (s : session) :
  setPressureAndCompensationValue wait_fuel py_str_float value s =
  let command := ("S " ++ format5' value ++ CRLF)%string in
  let valid :=
    match value with
    | VNone => false
    | VInt v => 0 <? v
    | VFloat q => Qgtb q 0
    end in
  if valid then
    match recv wait_fuel (written command s) with
    | (Ok (Some l), s2) =>
        if valid_utf8 (slice_from 1 l) then
          if String.eqb (slice_from 1 l) command
          then match py_int_of value with
               | Ok v => (Ok 0, set_compensationValue s2 v)
               | Raise e => (Raise e, s2)
               | OutOfFuel => (OutOfFuel, s2)
               end
          else (Raise SprintIRR20_unexpected_reply, s2)
        else (Raise UnicodeDecodeError, s2)
    | (Ok None, s2) => (Raise TypeError, s2)
    | (Raise e, s2) => (Raise e, s2)
    | (OutOfFuel, s2) => (OutOfFuel, s2)
    end
  else (Ok (-1), s).
Proof.
  unfold setPressureAndCompensationValue, written. cbn zeta.
  destruct value as [| v | q]; mrun; [reflexivity | |].
  - destruct (0 <? v); cbn [negb]; [| reflexivity].
    destruct (recv wait_fuel _) as [[[l |] | e |] s2]; try reflexivity.
    unfold decode. destruct (valid_utf8 _); [| reflexivity].
    destruct (String.eqb _ _); reflexivity.
  - destruct (Qgtb q 0); cbn [negb]; [| reflexivity].
    destruct (recv wait_fuel _) as [[[l |] | e |] s2]; try reflexivity.
    unfold decode. destruct (valid_utf8 _); [| reflexivity].
    destruct (String.eqb _ _); reflexivity.
Qed.

(** X7.  [setPressureAndCompensationValue] never touches the cached
    pressure, timeout, scaling factor or filter; it stores the new
    compensation value exactly when it returns 0, and leaves the cached
    one as it was on every other outcome. *)
Theorem setPressureAndCompensationValue_cache (value : pyval) (s : session) :
  let run := setPressureAndCompensationValue wait_fuel py_str_float value s in
  pressure (snd run) = pressure s /\
  scalingFactor (snd run) = scalingFactor s /\
  digitalFilter (snd run) = digitalFilter s /\
  timeout (snd run) = timeout s /\
  (fst run = Ok 0 -> py_int_of value = Ok (compensationValue (snd run))) /\
  (fst run <> Ok 0 -> compensationValue (snd run) = compensationValue s).
Proof.
  cbn zeta. rewrite setPressureAndCompensationValue_run. cbn zeta.
  pose proof (written_frame wait_fuel ("S " ++ format5' value ++ CRLF) s)
    as [F _].
  cbn zeta in F. unfold same_fields in F.
  destruct (match value with
            | VNone => false
            | VInt v => 0 <? v
            | VFloat q => Qgtb q 0
            end);
    [| cbn [fst snd]; repeat split; congruence].
  destruct (recv wait_fuel _) as [[[l |] | e |] s2]; cbn [fst snd] in *;
    try (repeat split; (congruence || tauto)).
  destruct (valid_utf8 _); cbn [fst snd];
    [| repeat split; (congruence || tauto)].
  destruct (String.eqb _ _); cbn [fst snd];
    [| repeat split; (congruence || tauto)].
  destruct value as [| v | q]; cbn [py_int_of fst snd set_compensationValue
    pressure scalingFactor digitalFilter timeout compensationValue];
    repeat split; (congruence || tauto).
Qed.

(** X8.  [setBackgroundPPMAutozeroing] never returns 0, whatever its
    argument and whatever the sensor answers: the five characters cut out
    of the second reply cannot equal the whole second command. *)
Theorem setBackgroundPPMAutozeroing_never_succeeds (value : pyval) (s : session) :
  fst (setBackgroundPPMAutozeroing wait_fuel py_str_float value s) <> Ok 0.
Proof.
  unfold setBackgroundPPMAutozeroing.
  unfold bind at 1.
  destruct (none_or_not_positive value s) as [[[|] | e |] s0]; cbn [fst];
    try discriminate.
  unfold bind at 1. unfold get at 1.
  unfold bind at 1.
  destruct (lift (py_truediv value (scalingFactor s0)) s0) as [[q | e |] s1];
    cbn [fst]; try discriminate.
  rewrite echo_run.
  destruct (recv wait_fuel _) as [[[l |] | e |] s2]; cbn [fst];
    try discriminate.
  destruct (decode (slice_from 1 l)) as [result | e |]; cbn [fst];
    try discriminate.
  destruct (String.eqb _ _); cbn [fst]; try discriminate.
  unfold bind at 1. unfold uart_write at 1.
  unfold bind at 1.
  destruct (recv wait_fuel _) as [[[l' |] | e |] s3]; cbn [fst];
    try discriminate.
  unfold bind at 1. unfold decode_slice, bind. cbn [subscript].
  unfold ret at 1. unfold lift, decode.
  destruct (valid_utf8 (slice 9 14 l')); cbn [fst]; [| discriminate].
  destruct (String.eqb (slice 9 14 l') _) eqn:E; cbn [negb fst];
    [| discriminate].
  exfalso. apply eqb_length in E.
  pose proof (substring_length_le 9 (14 - 9) l') as Hle.
  unfold slice in E. rewrite E in Hle.
  rewrite !length_append in Hle. cbn [String.length CRLF] in Hle. lia.
Qed.

End SettersEdges.

Lemma setDigitalFilter_rejects_witness :
  let s := session_with 1 8192 [reply "A 65636"] in
  setDigitalFilter 0 str_of_integral_float (VInt 65636) s = (Ok (-1), s) /\
  setDigitalFilter 0 str_of_integral_float (VInt 0) s = (Ok (-1), s).
Proof.
  intros s.
  destruct (setDigitalFilter_rejects 0 str_of_integral_float s) as [_ H].
  split; apply H; lia.
Defined.

Lemma setDigitalFilter_echo_witness :
  let s := session_with 1 8192 [None; reply "A 00032"] in
  fst (setDigitalFilter 0 str_of_integral_float (VInt 32) s) = Ok 0 /\
  fst (setDigitalFilter 0 str_of_integral_float (VInt 32)
         (session_with 1 8192 [])) = Raise SprintIRR20_timeout.
Proof.
  intros s. split.
  - destruct (setDigitalFilter_echo 0 str_of_integral_float 32 1 s
                ltac:(lia) eq_refl ltac:(lia)) as [H _].
    cbn zeta in H.
    rewrite (H 1%nat (String " "%char ("A 00032" ++ CRLF))).
    + reflexivity.
    + vm_compute. lia.
    + split; [intros j Hj; assert (j = 0%nat) by lia; subst; reflexivity
             | reflexivity].
  - destruct (setDigitalFilter_echo 0 str_of_integral_float 32 1
                (session_with 1 8192 []) ltac:(lia) eq_refl ltac:(lia))
      as [_ H].
    cbn zeta in H. rewrite H; [reflexivity |].
    intros i _. destruct i; reflexivity.
Defined.

Lemma setPressureAndCompensationValue_cache_witness :
  let ok := setPressureAndCompensationValue 0 str_of_integral_float (VInt 9000)
              (session_with 1 8192 [reply "S 09000"]) in
  let ko := setPressureAndCompensationValue 0 str_of_integral_float (VInt 9000)
              (session_with 1 8192 [reply "S 00009"]) in
  compensationValue (snd ok) = 9000 /\ compensationValue (snd ko) = 8192.
Proof.
  cbn zeta. split.
  - destruct (setPressureAndCompensationValue_cache 0 str_of_integral_float
                (VInt 9000) (session_with 1 8192 [reply "S 09000"]))
      as (_ & _ & _ & _ & H & _).
    specialize (H eq_refl). cbn [py_int_of] in H. congruence.
  - destruct (setPressureAndCompensationValue_cache 0 str_of_integral_float
                (VInt 9000) (session_with 1 8192 [reply "S 00009"]))
      as (_ & _ & _ & _ & _ & H).
    rewrite H; [reflexivity | vm_compute; discriminate].
Defined.

(** ** The two-byte split of the background commands *)

Lemma int_of_float_Qmake_nonneg (a : Z) (b : BinNums.positive) :
  0 <= a -> int_of_float (a # b) = a / Z.pos b.
Proof.
  intros H. unfold int_of_float. cbn [Qnum Qden].
  apply Z.quot_div_nonneg; lia.
Qed.

Lemma int_of_float_msb (v sf : Z) :
  0 <= v -> 0 < sf ->
  int_of_float (inject_Z v / inject_Z sf / 256)%Q = v / sf / 256.
Proof.
  intros Hv Hsf. destruct sf as [| p | p]; try lia.
  assert (E : (inject_Z v / inject_Z (Z.pos p) / 256 == v # (p * 256))%Q).
  { rewrite (Qmake_Qdiv v (p * 256)). rewrite Pos2Z.inj_mul.
    rewrite inject_Z_mult. field. intros H. q2z_in H. lia. }
  rewrite (int_of_float_comp _ _ E), int_of_float_Qmake_nonneg by exact Hv.
  rewrite Pos2Z.inj_mul, Z.div_div by lia. reflexivity.
Qed.

Lemma int_of_float_lsb (v sf : Z) :
  0 <= v -> 0 < sf ->
  int_of_float (inject_Z v / inject_Z sf - inject_Z (256 * (v / sf / 256)))%Q =
  (v / sf) mod 256.
Proof.
  intros Hv Hsf. destruct sf as [| p | p]; try lia.
  set (m := v / Z.pos p / 256).
  assert (Hm : 0 <= v - 256 * m * Z.pos p).
  { assert (0 <= v / Z.pos p) by (apply Z.div_pos; lia).
    pose proof (Z.mul_div_le (v / Z.pos p) 256 ltac:(lia)).
    pose proof (Z.mul_div_le v (Z.pos p) ltac:(lia)).
    fold m in H0. nia. }
  assert (E : (inject_Z v / inject_Z (Z.pos p) - inject_Z (256 * m) ==
               (v - 256 * m * Z.pos p) # p)%Q).
  { rewrite (Qmake_Qdiv (v - 256 * m * Z.pos p) p).
    unfold Z.sub. rewrite inject_Z_plus, inject_Z_opp, !inject_Z_mult.
    field. intros H. q2z_in H. lia. }
  rewrite (int_of_float_comp _ _ E), int_of_float_Qmake_nonneg by exact Hm.
  replace (v - 256 * m * Z.pos p) with (v + (- (256 * m)) * Z.pos p) by lia.
  rewrite Z.div_add by lia. unfold m. rewrite Z.mod_eq by lia. lia.
Qed.

Section Background.

Variable wait_fuel : nat.
Variable py_str_float : Q -> string.

Lemma setBackgroundPPMFreshAir_run (v : Z) (s : session) :
  0 < v -> 0 < scalingFactor s ->
  let scaled := v / scalingFactor s in
  let command_msb :=
    ("P 00010 " ++ formatArgument5digits py_str_float (VInt (scaled / 256))
       ++ CRLF)%string in
  let command_lsb :=
    ("P 00011 " ++ formatArgument5digits py_str_float (VInt (scaled mod 256))
       ++ CRLF)%string in
  setBackgroundPPMFreshAir wait_fuel py_str_float (VInt v) s =
  match recv wait_fuel (written command_msb s) with
  | (Ok (Some l), s2) =>
      if valid_utf8 (slice_from 1 l) then
        if String.eqb (slice_from 1 l) command_msb then
          match recv wait_fuel (written command_lsb s2) with
          | (Ok (Some l'), s3) =>
              if valid_utf8 (slice_from 1 l') then
                if String.eqb (slice_from 1 l') command_lsb then (Ok 0, s3)
                else (Raise SprintIRR20_unexpected_reply, s3)
              else (Raise UnicodeDecodeError, s3)
          | (Ok None, s3) => (Raise TypeError, s3)
          | (Raise e, s3) => (Raise e, s3)
          | (OutOfFuel, s3) => (OutOfFuel, s3)
          end
        else (Raise SprintIRR20_unexpected_reply, s2)
      else (Raise UnicodeDecodeError, s2)
  | (Ok None, s2) => (Raise TypeError, s2)
  | (Raise e, s2) => (Raise e, s2)
  | (OutOfFuel, s2) => (OutOfFuel, s2)
  end.
Proof.
  intros Hv Hsf scaled command_msb command_lsb.
  assert (E : (0 <? v) = true) by (apply Z.ltb_lt; exact Hv).
  unfold setBackgroundPPMFreshAir, written. mrun. rewrite E. cbn [negb].
  rewrite float_div_nonzero by lia.
  rewrite int_of_float_msb by lia.
  rewrite int_of_float_lsb by lia.
  fold scaled. fold command_msb. fold command_lsb.
  destruct (recv wait_fuel _) as [[[l |] | e |] s2]; try reflexivity.
  unfold decode. destruct (valid_utf8 _); [| reflexivity].
  destruct (String.eqb _ _); cbn [negb]; [| reflexivity].
  destruct (recv wait_fuel _) as [[[l' |] | e |] s3]; try reflexivity.
  destruct (valid_utf8 _); [| reflexivity].
  destruct (String.eqb _ _); reflexivity.
Qed.



(** X9.  For a positive [int] value and a positive scaling factor,
    [setBackgroundPPMFreshAir] splits the scaled value
    [value // scalingFactor] into its quotient and remainder by 256 (so
    the low part is below 256 and the two parts give the scaled value
    back), writes [P 00010 <high>], and only when that command is echoed
    writes [P 00011 <low>]; it returns 0 when the second one is echoed
    too.  Each reply is decoded after its first character: a reply that
    is not well-formed UTF-8 raises [UnicodeDecodeError], one that is
    other text raises [SprintIRR20_unexpected_reply]. *)
Theorem setBackgroundPPMFreshAir_split (v : Z) (s : session) :
  0 < v -> 0 < scalingFactor s ->
  let scaled := v / scalingFactor s in
  let msb := scaled / 256 in
  let lsb := scaled mod 256 in
  let command_msb :=
    ("P 00010 " ++ formatArgument5digits py_str_float (VInt msb) ++ CRLF)%string in
  let command_lsb :=
    ("P 00011 " ++ formatArgument5digits py_str_float (VInt lsb) ++ CRLF)%string in
  0 <= lsb < 256 /\ 256 * msb + lsb = scaled /\
  setBackgroundPPMFreshAir wait_fuel py_str_float (VInt v) s =
  match recv wait_fuel (written command_msb s) with
  | (Ok (Some l), s2) =>
      if valid_utf8 (slice_from 1 l) then
        if String.eqb (slice_from 1 l) command_msb then
          match recv wait_fuel (written command_lsb s2) with
          | (Ok (Some l'), s3) =>
              if valid_utf8 (slice_from 1 l') then
                if String.eqb (slice_from 1 l') command_lsb then (Ok 0, s3)
                else (Raise SprintIRR20_unexpected_reply, s3)
              else (Raise UnicodeDecodeError, s3)
          | (Ok None, s3) => (Raise TypeError, s3)
          | (Raise e, s3) => (Raise e, s3)
          | (OutOfFuel, s3) => (OutOfFuel, s3)
          end
        else (Raise SprintIRR20_unexpected_reply, s2)
      else (Raise UnicodeDecodeError, s2)
  | (Ok None, s2) => (Raise TypeError, s2)
  | (Raise e, s2) => (Raise e, s2)
  | (OutOfFuel, s2) => (OutOfFuel, s2)
  end.
Proof.
  intros Hv Hsf scaled msb lsb command_msb command_lsb.
  split; [apply Z.mod_pos_bound; lia |].
  split; [unfold msb, lsb; pose proof (Z.div_mod scaled 256); lia |].
  apply (setBackgroundPPMFreshAir_run v s Hv Hsf).
Qed.

End Background.

Lemma setBackgroundPPMFreshAir_split_witness :
  let s := session_with 10 8192 [reply "P 00010 00001"; reply "P 00011 00144"] in
  setBackgroundPPMFreshAir 0 str_of_integral_float (VInt 4005) s =
  (Ok 0, advance 1 (written ("P 00011 00144" ++ CRLF)
                      (advance 1 (written ("P 00010 00001" ++ CRLF) s)))).
Proof.
  intros s.
  destruct (setBackgroundPPMFreshAir_split 0 str_of_integral_float 4005 s
              ltac:(lia) ltac:(reflexivity)) as (_ & _ & H).
  rewrite H. reflexivity.
Defined.

(** ** Getters and start-up *)

Section Getters.

Variable wait_fuel : nat.
Variable py_int : string -> outcome Z.

Lemma sends_after_recv (command : string) (s : session) :
  sends command s (snd (recv wait_fuel (written command s))).
Proof. apply written_frame. Qed.

Lemma getScalingFactorMultiplier_sends (s : session) :
  sends ("." ++ CRLF) s (snd (getScalingFactorMultiplier wait_fuel py_int s)).
Proof.
  pose proof (sends_after_recv ("." ++ CRLF) s) as F.
  unfold getScalingFactorMultiplier, written in *. mrun.
  destruct (recv wait_fuel _) as [[[l |] | e |] s2]; cbn [snd] in *;
    exact F.
Qed.

Lemma getDigitalFilter_sends (s : session) :
  sends ("a" ++ CRLF) s (snd (getDigitalFilter wait_fuel py_int s)).
Proof.
  pose proof (sends_after_recv ("a" ++ CRLF) s) as F.
  unfold getDigitalFilter, written in *. mrun.
  destruct (recv wait_fuel _) as [[[l |] | e |] s2]; cbn [snd] in *;
    exact F.
Qed.

(** X10.  [getPressureAndCompensationValue] writes [s], changes no cached
    setting, and returns only non-negative values: a negative field raises
    [SprintIRR20_unexpected_reply]. *)
Theorem getPressureAndCompensationValue_nonnegative (s : session) :
  let run := getPressureAndCompensationValue wait_fuel py_int s in
  sends ("s" ++ CRLF) s (snd run) /\
  (forall v, fst run = Ok v -> 0 <= v) /\
  (forall l s2 v,
      recv wait_fuel (written ("s" ++ CRLF) s) = (Ok (Some l), s2) ->
      py_int (slice 3 8 l) = Ok v -> v < 0 ->
      run = (Raise SprintIRR20_unexpected_reply, s2)).
Proof.
  cbn zeta.
  pose proof (sends_after_recv ("s" ++ CRLF) s) as F.
  unfold getPressureAndCompensationValue, written in *. mrun.
  destruct (recv wait_fuel _) as [[[l |] | e |] s2] eqn:R; cbn [fst snd] in *.
  - destruct (py_int (slice 3 8 l)) as [v | e |] eqn:P; cbn [fst snd].
    + destruct (Z.ltb_spec v 0); cbn [fst snd].
      * split; [exact F |]. split; [intros ? ?; discriminate |].
        intros l0 s0 v0 H0 H1 _. inversion H0; subst. reflexivity.
      * split; [exact F |].
        split; [intros v0 H0; inversion H0; subst; assumption |].
        intros l0 s0 v0 H0 H1 H2. inversion H0; subst.
        rewrite P in H1. inversion H1; subst. lia.
    + split; [exact F |]. split; [intros ? ?; discriminate |].
      intros l0 s0 v0 H0 H1 _. inversion H0; subst. congruence.
    + split; [exact F |]. split; [intros ? ?; discriminate |].
      intros l0 s0 v0 H0 H1 _. inversion H0; subst. congruence.
  - split; [exact F |]. split; intros; discriminate.
  - split; [exact F |]. split; intros; discriminate.
  - split; [exact F |]. split; intros; discriminate.
Qed.

Lemma getPressureAndCompensationValue_sends (s : session) :
  let run := getPressureAndCompensationValue wait_fuel py_int s in
  sends ("s" ++ CRLF) s (snd run) /\ (forall v, fst run = Ok v -> 0 <= v).
Proof.
  cbn zeta.
  pose proof (sends_after_recv ("s" ++ CRLF) s) as F.
  unfold getPressureAndCompensationValue, written in *. mrun.
  destruct (recv wait_fuel _) as [[[l |] | e |] s2]; cbn [fst snd] in *;
    try (split; [exact F | intros; discriminate]).
  destruct (py_int (slice 3 8 l)) as [v | e |]; cbn [fst snd];
    try (split; [exact F | intros; discriminate]).
  destruct (Z.ltb_spec v 0); cbn [fst snd];
    (split; [exact F | intros v0 H0; try discriminate]).
  inversion H0; subst. assumption.
Qed.

Lemma sends_fields (command : string) (s s' : session) :
  sends command s s' -> same_fields s s'.
Proof. intros [H _]. exact H. Qed.

Lemma init_run (t : pyval) (scaling_factor : option Z) (s0 sF : session) :
  init wait_fuel py_int t scaling_factor s0 = (Ok tt, sF) ->
  pressure sF = compensationToPressure (compensationValue sF) /\
  0 <= compensationValue sF /\
  timeout sF = t /\
  match scaling_factor with
  | Some v =>
      scalingFactor sF = v /\
      tx (uart sF) = tx (uart s0) ++ ["s" ++ CRLF; "a" ++ CRLF]%string
  | None =>
      tx (uart sF) =
      tx (uart s0) ++ ["." ++ CRLF; "s" ++ CRLF; "a" ++ CRLF]%string
  end.
Proof.
  intros H. unfold init in H.
  unfold bind at 1 in H. unfold modify at 1 in H.
  set (s1 := mkSession (uart s0) t (scalingFactor s0) (compensationValue s0)
               (pressure s0) (digitalFilter s0)) in H.
  unfold bind at 1 in H.
  destruct (match scaling_factor with
            | Some v => ret v
            | None => getScalingFactorMultiplier wait_fuel py_int
            end s1) as [[sf | e |] s2] eqn:Esf; try discriminate.
  assert (F2 : timeout s2 = t /\
               match scaling_factor with
               | Some v => sf = v /\ tx (uart s2) = tx (uart s0)
               | None => tx (uart s2) = tx (uart s0) ++ ["." ++ CRLF]%string
               end).
  { destruct scaling_factor as [v |].
    - unfold ret in Esf. inversion Esf; subst. cbn. auto.
    - pose proof (getScalingFactorMultiplier_sends s1) as [Ff Ft].
      rewrite Esf in Ff, Ft. cbn [snd] in Ff, Ft. unfold same_fields in Ff.
      cbn [s1 timeout uart tx] in Ff, Ft. tauto. }
  unfold bind at 1 in H. unfold modify at 1 in H.
  set (s3 := set_scalingFactor s2 sf) in H.
  unfold bind at 1 in H.
  pose proof (getPressureAndCompensationValue_sends s3) as (Fc & Hc).
  destruct (getPressureAndCompensationValue wait_fuel py_int s3)
    as [[c | e |] s4] eqn:Ec; cbn [fst snd] in *; try discriminate.
  specialize (Hc c eq_refl).
  unfold bind at 1 in H. unfold modify at 1 in H.
  unfold bind at 1 in H. unfold get at 1 in H.
  unfold bind at 1 in H. unfold modify at 1 in H.
  cbn [compensationValue set_compensationValue] in H.
  set (s5 := set_pressure (set_compensationValue s4 c) (compensationToPressure c))
    in H.
  unfold bind at 1 in H.
  pose proof (getDigitalFilter_sends s5) as Fd.
  destruct (getDigitalFilter wait_fuel py_int s5) as [[d | e |] s6] eqn:Ed;
    cbn [fst snd] in *; try discriminate.
  unfold modify in H. inversion H; subst sF. clear H.
  destruct Fc as [Fc Tc]. destruct Fd as [Fd Td].
  unfold same_fields in Fc, Fd.
  cbn [s5 s3 set_pressure set_compensationValue set_scalingFactor
         set_digitalFilter timeout scalingFactor compensationValue pressure
         digitalFilter uart tx] in *.
  destruct Fc as (Fc1 & Fc2 & _). destruct Fd as (Fd1 & Fd2 & Fd3 & Fd4 & _).
  destruct F2 as [F2a F2b].
  repeat split; try congruence; try lia.
  destruct scaling_factor as [v |].
  - destruct F2b as [-> F2b]. split; [congruence |].
    rewrite Td, Tc, F2b, <- app_assoc. reflexivity.
  - rewrite Td, Tc, F2b, <- !app_assoc. reflexivity.
Qed.

(** X11.  When [__init__] completes, the cached pressure is the one that
    the cached compensation value stands for, the compensation value is
    not negative, and the timeout is the one asked for.  With a scaling
    factor handed in, that one is kept and the sensor is only asked for
    the compensation value and the filter; without one it is asked for the
    scaling factor first. *)
Theorem init_establishes (t : pyval) (scaling_factor : option Z) (s0 : session) :
  let run := init wait_fuel py_int t scaling_factor s0 in
  fst run = Ok tt ->
  pressure (snd run) = compensationToPressure (compensationValue (snd run)) /\
  0 <= compensationValue (snd run) /\
  timeout (snd run) = t /\
  match scaling_factor with
  | Some v =>
      scalingFactor (snd run) = v /\
      tx (uart (snd run)) = tx (uart s0) ++ ["s" ++ CRLF; "a" ++ CRLF]%string
  | None =>
      tx (uart (snd run)) =
      tx (uart s0) ++ ["." ++ CRLF; "s" ++ CRLF; "a" ++ CRLF]%string
  end.
Proof.
  cbn zeta. intros H.
  destruct (init wait_fuel py_int t scaling_factor s0) as [o sF] eqn:E.
  cbn [fst snd] in *. subst o. exact (init_run t scaling_factor s0 sF E).
Qed.

End Getters.

Lemma getPressureAndCompensationValue_nonnegative_witness :
  fst (getPressureAndCompensationValue 0 int_of_field
         (session_with 1 8192 [reply "s -0005"]))
  = Raise SprintIRR20_unexpected_reply.
Proof.
  destruct (getPressureAndCompensationValue_nonnegative 0 int_of_field
              (session_with 1 8192 [reply "s -0005"])) as (_ & _ & H).
  cbn zeta in H.
  rewrite (H (String " "%char ("s -0005" ++ CRLF)) _ (-5) eq_refl eq_refl);
    [reflexivity | lia].
Defined.

Lemma init_establishes_witness :
  let run := init 0 int_of_field (VInt 1) None
               (new_object
                  (uart_of_lines [reply ". 00010"; reply "s 09000"; reply "a 00016"])) in
  pressure (snd run) = 1003 /\ compensationValue (snd run) = 9000 /\
  scalingFactor (snd run) = 10.
Proof.
  intros run.
  destruct (init_establishes 0 int_of_field (VInt 1) None
              (new_object
                 (uart_of_lines [reply ". 00010"; reply "s 09000"; reply "a 00016"]))
              eq_refl) as (H & _).
  fold run in H. split; [rewrite H; reflexivity | split; reflexivity].
Defined.

(** ** The correction and the percentage, continued *)

(** X12.  At the calibration pressure of 1013 mbar the correction changes
    nothing: the corrected value is the value itself, on both branches. *)
Theorem corrected_value_at_calibration_pressure (value : Z) :
  corrected_value value 1013 = Ok value.
Proof.
  unfold corrected_value, float_div.
  set (Y := correction_Y value).
  assert (E : (1 + Y * inject_Z (1013 - 1013) == 1)%Q).
  { change (1013 - 1013) with 0. change (inject_Z 0) with 0%Q. ring. }
  rewrite (Qeqb_comp _ _ E 0%Q 0%Q (Qeq_refl 0%Q)).
  change (Qeq_bool 1 0) with false. cbn iota.
  assert (E2 : (inject_Z value / (1 + Y * inject_Z (1013 - 1013)) ==
                inject_Z value)%Q).
  { rewrite E. field. }
  rewrite (int_of_float_comp _ _ E2).
  unfold int_of_float, inject_Z. cbn [Qnum Qden]. rewrite Z.quot_1_r.
  reflexivity.
Qed.

(** X13.  For a non-negative value the percentage is [value / 10000]
    rounded to two decimals: it is a whole number of hundredths and lies
    within 0.005 of the exact quotient.  For a negative value it is the
    marker [-1]. *)
Theorem PPMtoPercentage_rounding (value : Z) :
  (0 <= value ->
   exists hundredths : Z,
     (PPMtoPercentage value == inject_Z hundredths / 100)%Q /\
     (-50 <= 100 * hundredths - value <= 50)) /\
  (value < 0 -> PPMtoPercentage value = (-1)%Q).
Proof.
  unfold PPMtoPercentage. split; intros H.
  - destruct (Z.ltb_spec value 0); [lia |].
    unfold format_2f.
    assert (E : (inject_Z value / 10000 * 100 == inject_Z value / 100)%Q) by field.
    rewrite (round_half_even_comp _ _ E), round_half_even_hundredths.
    pose proof (Z.div_mod value 100 ltac:(lia)) as Hdm.
    pose proof (Z.mod_pos_bound value 100 ltac:(lia)) as Hb.
    eexists. split; [reflexivity |].
    destruct (Z.ltb_spec 50 (value mod 100)); [lia |].
    destruct (Z.eqb_spec (value mod 100) 50); [| lia].
    destruct (Z.even (value / 100)); lia.
  - destruct (Z.ltb_spec value 0); [reflexivity | lia].
Qed.

Lemma PPMtoPercentage_rounding_witness :
  (exists hundredths : Z,
      (PPMtoPercentage 450 == inject_Z hundredths / 100)%Q /\
      (-50 <= 100 * hundredths - 450 <= 50)) /\
  PPMtoPercentage (-3) = (-1)%Q.
Proof.
  split.
  - apply (proj1 (PPMtoPercentage_rounding 450)). lia.
  - apply (proj2 (PPMtoPercentage_rounding (-3))). lia.
Defined.

Section MeasurementEdges.

Variable wait_fuel : nat.
Variable py_int_float : string -> outcome Z.

(** X14.  A measurement writes exactly one command, [Z] when filtered and
    [z] when not, and changes none of the cached settings, whatever the
    sensor answers and whether or not the correction is applied. *)
Theorem getCO2Measurement_frame (filtered check : bool) (s : session) :
  let run := getCO2Measurement wait_fuel py_int_float filtered check s in
  same_fields s (snd run) /\
  tx (uart (snd run)) =
  tx (uart s) ++ [((if filtered then "Z" else "z") ++ CRLF)%string].
Proof.
  cbn zeta.
  pose proof (read_frame wait_fuel py_int_float filtered s) as F.
  cbn zeta in F.
  destruct (read_measurement wait_fuel py_int_float filtered s)
    as [[raw | e |] s'] eqn:E; cbn [snd] in F.
  - rewrite (getCO2Measurement_run wait_fuel py_int_float filtered check s s' raw E).
    destruct (raw <? 0); [exact F |].
    destruct (check && _); [| exact F].
    unfold correctMeasurement, bind, get, lift. cbn [snd]. exact F.
  - unfold getCO2Measurement, bind. unfold read_measurement in E.
    destruct filtered; rewrite E; exact F.
  - unfold getCO2Measurement, bind. unfold read_measurement in E.
    destruct filtered; rewrite E; exact F.
Qed.

(** X15.  Without a timeout ([timeout = 0]) a measurement waits for the
    first line, however many attempts that takes, and then goes on as
    with a timeout: the five characters from index 3 are the raw reading;
    a negative one gives [-1], and otherwise the reading is scaled and,
    when the check is asked for and the scaled value is above 10050,
    corrected. *)
Theorem getCO2Measurement_no_timeout (filtered check : bool) (i : nat)
    (l : string) (raw : Z) (s : session) :
  timeout s = VInt 0 -> (i < wait_fuel)%nat -> first_line_at i l s ->
  py_int_float (slice 3 8 l) = Ok raw ->
  let command := ((if filtered then "Z" else "z") ++ CRLF)%string in
  let s' := advance (S i) (written command s) in
  getCO2Measurement wait_fuel py_int_float filtered check s =
  if raw <? 0 then (Ok (-1), s')
  else if check && (10050 <? raw * scalingFactor s)
       then correctMeasurement (raw * scalingFactor s) s'
       else (Ok (raw * scalingFactor s), s').
Proof.
  intros Ht Hi Hl Hraw command s'.
  assert (R : forall cmd, recv wait_fuel (written cmd s) =
                          (Ok (Some l), advance (S i) (written cmd s))).
  { intros cmd. unfold recv, bind, get.
    change (timeout (written cmd s)) with (timeout s). rewrite Ht.
    unfold UART_recv, recv_no_timeout. cbn [Z.eqb].
    destruct Hl as [Hnone Hsome].
    rewrite (recv_forever_first wait_fuel (uart (written cmd s)) i l Hi
               Hnone Hsome).
    reflexivity. }
  assert (E : read_measurement wait_fuel py_int_float filtered s =
              (Ok raw, s')).
  { unfold read_measurement, getMostRecentFilteredCO2Measurement,
      getMostRecentUnfilteredCO2Measurement, s', command.
    destruct filtered; unfold bind at 1; unfold uart_write at 1;
      unfold bind at 1;
      match goal with
      | |- context [recv wait_fuel (set_uart s (uart_write_ ?c (uart s)))] =>
          change (set_uart s (uart_write_ c (uart s))) with (written c s);
          rewrite (R c)
      end; unfold lift; rewrite Hraw; reflexivity. }
  rewrite (getCO2Measurement_run wait_fuel py_int_float filtered check s s'
             raw E).
  reflexivity.
Qed.

End MeasurementEdges.

Lemma getCO2Measurement_no_timeout_witness :
  let s := mkSession (uart_of_lines [reply "z 00450"]) (VInt 0) 10 8192 1013 16 in
  getCO2Measurement 3 int_of_field false true s =
  (Ok 4500, advance 1 (written ("z" ++ CRLF) s)).
Proof.
  intros s.
  rewrite (getCO2Measurement_no_timeout 3 int_of_field false true 0
             (String " "%char ("z 00450" ++ CRLF)) 450 s).
  - reflexivity.
  - reflexivity.
  - lia.
  - split; [intros j Hj; lia | reflexivity].
  - reflexivity.
Defined.

(** ** Pressure and compensation, continued *)

Lemma forall_from_true (f : Z -> bool) (n : nat) :
  forall lo, forall_from f lo n = true ->
  forall z, lo <= z < lo + Z.of_nat n -> f z = true.
Proof.
  induction n as [| n IH]; intros lo H z Hz; [lia |].
  cbn [forall_from] in H. apply andb_true_iff in H. destruct H as [H0 H].
  destruct (Z.eq_dec z lo) as [-> | Hne]; [exact H0 |].
  apply (IH (lo + 1) H). lia.
Qed.

Lemma pressureToCompensation_rational (p : Z) :
  pressureToCompensation p = compensation_cut p.
Proof.
  unfold pressureToCompensation, compensation_cut.
  assert (E : (8192 + inject_Z (1013 - p) * 0.14 / 100 * 8192 ==
               (5120000 + 7168 * (1013 - p)) # 625)%Q) by (q2z; lia).
  rewrite (int_of_float_comp _ _ E). reflexivity.
Qed.

Lemma compensationToPressure_rational (c : Z) :
  compensationToPressure c = pressure_cut c.
Proof.
  unfold compensationToPressure, pressure_cut.
  assert (E : ((inject_Z ((c - 8192) * 100) / 8192 - 1013 * 0.14 / 0.14) * -1 ==
               (2279424 - 25 * c) # 2048)%Q) by (q2z; lia).
  rewrite (int_of_float_comp _ _ E). reflexivity.
Qed.

Lemma int_of_float_opp (q : Q) : int_of_float (- q) = - int_of_float q.
Proof.
  unfold int_of_float. destruct q as [n d]. cbn [Qopp Qnum Qden].
  apply Z.quot_opp_l. lia.
Qed.

Lemma int_of_float_scaled (m : BinNums.positive) (e : Z) :
  int_of_float (inject_Z (Z.pos m) * Qpower 2 e) =
  if 0 <=? e then Z.shiftl (Z.pos m) e else Z.shiftr (Z.pos m) (- e).
Proof.
  destruct (Z.leb_spec 0 e) as [He | He].
  - assert (E : (inject_Z (Z.pos m) * Qpower 2 e ==
                 inject_Z (Z.pos m * 2 ^ e))%Q).
    { rewrite inject_Z_mult, (Zpower_Qpower 2 e He). reflexivity. }
    rewrite (int_of_float_comp _ _ E). unfold int_of_float, inject_Z.
    cbn [Qnum Qden]. rewrite Z.quot_1_r, Z.shiftl_mul_pow2 by exact He.
    reflexivity.
  - assert (Hd : 0 < 2 ^ (- e)) by (apply Z.pow_pos_nonneg; lia).
    assert (E : (inject_Z (Z.pos m) * Qpower 2 e ==
                 Z.pos m # Z.to_pos (2 ^ (- e)))%Q).
    { rewrite (Qmake_Qdiv (Z.pos m) (Z.to_pos (2 ^ (- e)))).
      rewrite Z2Pos.id by exact Hd.
      rewrite (Zpower_Qpower 2 (- e)) by lia.
      rewrite <- (Z.opp_involutive e) at 1. rewrite Qpower_opp.
      reflexivity. }
    rewrite (int_of_float_comp _ _ E), int_of_float_Qmake_nonneg by lia.
    rewrite Z2Pos.id by exact Hd. rewrite Z.shiftr_div_pow2 by lia.
    reflexivity.
Qed.

(** The two readings of [int(x)] agree on every float. *)
Lemma to_int_shift_correct (x : float) :
  Binary64.to_int x = Binary64.to_int_shift x.
Proof.
  unfold Binary64.to_int, Binary64.to_int_shift, Binary64.exact.
  destruct (Prim2SF x) as [sign | sign | | sign m e]; try reflexivity.
  cbn [option_map]. f_equal.
  destruct sign; [rewrite int_of_float_opp |];
    rewrite int_of_float_scaled; reflexivity.
Qed.

Lemma binary64_pressureToCompensation_table :
  forall_from
    (fun p =>
       match Binary64.to_int_shift
               (8192 + ((Binary64.of_int (1013 - p) * 0.14 / 100) * 8192))%float
       with
       | Some c => c =? (if p =? 1638 then compensation_cut p - 1
                         else compensation_cut p)
       | None => false
       end)
    (-7000) (Z.to_nat 9001) = true.
Proof. vm_compute. reflexivity. Qed.

Lemma binary64_compensationToPressure_table :
  forall_from
    (fun c =>
       match Binary64.to_int_shift
               (((Binary64.of_int ((c - 8192) * 100) / 8192
                  - (1013 * 0.14) / 0.14) * -1))%float
       with
       | Some p => p =? (if pressure_off_by_one c then pressure_cut c + 1
                         else pressure_cut c)
       | None => false
       end)
    0 (Z.to_nat 100000) = true.
Proof. vm_compute. reflexivity. Qed.

Lemma binary64_pressureToCompensation_value (p : Z) :
  -7000 <= p <= 2000 ->
  Binary64.pressureToCompensation p =
  Some (if p =? 1638 then compensation_cut p - 1 else compensation_cut p).
Proof.
  intros Hp.
  pose proof (forall_from_true _ _ _ binary64_pressureToCompensation_table p
                ltac:(lia)) as H.
  cbv beta in H.
  unfold Binary64.pressureToCompensation. rewrite to_int_shift_correct.
  destruct (Binary64.to_int_shift _) as [c |]; [| discriminate].
  apply Z.eqb_eq in H. rewrite H. reflexivity.
Qed.

Lemma binary64_compensationToPressure_value (c : Z) :
  0 <= c <= 99999 ->
  Binary64.compensationToPressure c =
  Some (if pressure_off_by_one c then pressure_cut c + 1 else pressure_cut c).
Proof.
  intros Hc.
  pose proof (forall_from_true _ _ _ binary64_compensationToPressure_table c
                ltac:(lia)) as H.
  cbv beta in H.
  unfold Binary64.compensationToPressure. rewrite to_int_shift_correct.
  destruct (Binary64.to_int_shift _) as [p |]; [| discriminate].
  apply Z.eqb_eq in H. rewrite H. reflexivity.
Qed.

(** X16.  [pressureToCompensation] on binary64 floats, for pressures from
    -7000 to 2000 mbar: the result is 8192 plus 11.4688 per mbar below
    1013, cut toward zero, except at 1638 mbar, where the float product
    falls just short of 1024 and the result is 1023 and not 1024.  The
    rational reading of the same expression gives the cut value
    throughout, so it differs from the floats at 1638 only.  On floats
    too the result does not increase when the pressure increases. *)
Theorem pressureToCompensation_closed_form (p : Z) :
  -7000 <= p <= 2000 ->
  Binary64.pressureToCompensation p =
  Some (if p =? 1638 then 1023 else compensation_cut p) /\
  (p <> 1638 -> Binary64.pressureToCompensation p = Some (pressureToCompensation p)) /\
  (forall p' c c',
      p <= p' <= 2000 ->
      Binary64.pressureToCompensation p = Some c ->
      Binary64.pressureToCompensation p' = Some c' ->
      c' <= c).
Proof.
  intros Hp. rewrite (binary64_pressureToCompensation_value p Hp).
  split; [| split].
  - destruct (Z.eqb_spec p 1638) as [-> | Hne]; reflexivity.
  - intros Hne. rewrite pressureToCompensation_rational.
    destruct (Z.eqb_spec p 1638); [contradiction | reflexivity].
  - intros p' c c' Hp' Hc Hc'.
    rewrite (binary64_pressureToCompensation_value p' ltac:(lia)) in Hc'.
    inversion Hc; subst c. inversion Hc'; subst c'.
    unfold compensation_cut.
    destruct (Z.eqb_spec p 1638); destruct (Z.eqb_spec p' 1638);
      Z.to_euclidean_division_equations; lia.
Qed.

Lemma pressureToCompensation_closed_form_witness :
  Binary64.pressureToCompensation 800 = Some 10634 /\
  Binary64.pressureToCompensation 1638 = Some 1023 /\
  pressureToCompensation 1638 = 1024.
Proof.
  destruct (pressureToCompensation_closed_form 800 ltac:(lia)) as (H & _).
  destruct (pressureToCompensation_closed_form 1638 ltac:(lia)) as (H' & _).
  split; [rewrite H; reflexivity |]. split; [rewrite H' |]; reflexivity.
Defined.

(** X17.  [compensationToPressure] on binary64 floats, for the
    compensation values a five-digit field can carry (0 to 99999): the
    result is 1013 minus 25/2048 mbar per unit above 8192, cut toward
    zero, except at 92160, 94208, 96256 and 98304, where the float
    [(1013*0.14)/0.14 = 1013.0000000000001] leaves the difference just
    above a negative integer and the result is one more.  The rational
    reading gives the cut value throughout, so it differs from the floats
    at these four values only.  On floats too the result does not
    increase when the compensation value increases. *)
Theorem compensationToPressure_closed_form (c : Z) :
  0 <= c <= 99999 ->
  Binary64.compensationToPressure c =
  Some (if pressure_off_by_one c then pressure_cut c + 1 else pressure_cut c) /\
  (pressure_off_by_one c = false ->
   Binary64.compensationToPressure c = Some (compensationToPressure c)) /\
  (forall c' p p',
      c <= c' <= 99999 ->
      Binary64.compensationToPressure c = Some p ->
      Binary64.compensationToPressure c' = Some p' ->
      p' <= p).
Proof.
  intros Hc. rewrite (binary64_compensationToPressure_value c Hc).
  split; [reflexivity | split].
  - intros Hoff. rewrite Hoff, compensationToPressure_rational. reflexivity.
  - intros c' p p' Hc' Hp Hp'.
    rewrite (binary64_compensationToPressure_value c' ltac:(lia)) in Hp'.
    inversion Hp; subst p. inversion Hp'; subst p'.
    unfold pressure_cut, pressure_off_by_one. cbn [existsb].
    destruct (Z.eqb_spec c 92160); destruct (Z.eqb_spec c 94208);
      destruct (Z.eqb_spec c 96256); destruct (Z.eqb_spec c 98304);
      destruct (Z.eqb_spec c' 92160); destruct (Z.eqb_spec c' 94208);
      destruct (Z.eqb_spec c' 96256); destruct (Z.eqb_spec c' 98304);
      cbn [orb]; try lia;
      Z.to_euclidean_division_equations; lia.
Qed.

Lemma compensationToPressure_closed_form_witness :
  Binary64.compensationToPressure 9000 = Some 1003 /\
  Binary64.compensationToPressure 92160 = Some (-11) /\
  compensationToPressure 92160 = -12.
Proof.
  destruct (compensationToPressure_closed_form 9000 ltac:(lia)) as (H & _).
  destruct (compensationToPressure_closed_form 92160 ltac:(lia)) as (H' & _).
  split; [rewrite H; reflexivity |]. split; [rewrite H' |]; reflexivity.
Defined.

Lemma round_trip_table :
  forallb
    (fun k =>
       let p := 800 + Z.of_nat k in
       Bool.eqb
         (Z.abs (compensationToPressure (pressureToCompensation p) - p) <=? 1)
         ((1011 <=? p) && (p <=? 1014)))
    (seq 0 301) = true.
Proof. vm_compute. reflexivity. Qed.

(** X18.  Between 800 and 1100 mbar, converting a pressure to a
    compensation value and back lands within 1 mbar of it exactly for the
    pressures 1011 to 1014. *)
Theorem compensation_round_trip_close (p : Z) :
  800 <= p <= 1100 ->
  (Z.abs (compensationToPressure (pressureToCompensation p) - p) <= 1 <->
   1011 <= p <= 1014).
Proof.
  intros Hp.
  pose proof (proj1 (forallb_forall _ _) round_trip_table
                (Z.to_nat (p - 800))) as H.
  cbv beta zeta in H.
  replace (800 + Z.of_nat (Z.to_nat (p - 800))) with p in H by lia.
  specialize (H ltac:(apply in_seq; lia)).
  apply Bool.eqb_prop in H.
  rewrite <- Z.leb_le, H, andb_true_iff, !Z.leb_le. tauto.
Qed.

Lemma compensation_round_trip_close_witness :
  Z.abs (compensationToPressure (pressureToCompensation 1012) - 1012) <= 1 /\
  ~ Z.abs (compensationToPressure (pressureToCompensation 900) - 900) <= 1.
Proof.
  split.
  - apply (compensation_round_trip_close 1012); lia.
  - intros H. apply (compensation_round_trip_close 900) in H; lia.
Defined.

(** ** Mode switch, auto-zero intervals and commands without an echo check *)

Lemma numberOfDigits_single (v : Z) :
  0 < v -> (1 <? numberOfDigits (VInt v)) = (9 <? v).
Proof.
  intros H.
  destruct (numberOfDigits_positive v H) as [Hd [Hlo Hhi]].
  set (d := numberOfDigits (VInt v)) in *.
  destruct (Z.ltb_spec 1 d) as [H1 | H1]; destruct (Z.ltb_spec 9 v) as [H9 | H9];
    try reflexivity; exfalso.
  - assert (10 ^ 1 <= 10 ^ (d - 1)) by (apply Z.pow_le_mono_r; lia).
    change (10 ^ 1) with 10 in *. lia.
  - assert (d = 1) by lia. subst d. replace (numberOfDigits (VInt v)) with 1 in Hhi.
    change (10 ^ 1) with 10 in *. lia.
Qed.

Section Switches.

Variable wait_fuel : nat.
Variable py_str_float : Q -> string.

(** X19.  [switchMode] turns down [None] and every [int] other than 0, 1
    and 2 with [-1], touching nothing.  For 0, 1 and 2 the command it
    writes carries the mode as the same five-character token that
    [formatArgument5digits] gives, and the call returns 0 exactly when the
    reply, decoded after its first character, is the command; a reply
    that is not well-formed UTF-8 raises [UnicodeDecodeError]. *)
Theorem switchMode_modes (mode : Z) (s : session) :
  switchMode wait_fuel py_str_float VNone s = (Ok (-1), s) /\
  (mode < 0 \/ 2 < mode ->
   switchMode wait_fuel py_str_float (VInt mode) s = (Ok (-1), s)) /\
  (0 <= mode <= 2 ->
   let command :=
     ("K " ++ formatArgument5digits py_str_float (VInt mode) ++ CRLF)%string in
   switchMode wait_fuel py_str_float (VInt mode) s =
   match recv wait_fuel (written command s) with
   | (Ok (Some l), s2) =>
       if valid_utf8 (slice_from 1 l) then
         if String.eqb (slice_from 1 l) command then (Ok 0, s2)
         else (Raise SprintIRR20_unexpected_reply, s2)
       else (Raise UnicodeDecodeError, s2)
   | (Ok None, s2) => (Raise TypeError, s2)
   | (Raise e, s2) => (Raise e, s2)
   | (OutOfFuel, s2) => (OutOfFuel, s2)
   end).
Proof.
  split; [reflexivity |]. split.
  - intros H. unfold switchMode, mode_in_range, py_eq.
    destruct (Z.eqb_spec mode 0); [lia |].
    destruct (Z.eqb_spec mode 1); [lia |].
    destruct (Z.eqb_spec mode 2); [lia |]. reflexivity.
  - intros H.
    assert (E : mode = 0 \/ mode = 1 \/ mode = 2) by lia.
    destruct E as [-> | [-> | ->]]; cbn zeta; unfold switchMode;
      cbn [mode_in_range py_eq Z.eqb Pos.eqb orb]; rewrite echo_run_utf8;
      reflexivity.
Qed.

Lemma setInitialAndIntervalAutoZeroing_run (initial regular : Z) (s : session) :
  setInitialAndIntervalAutoZeroing wait_fuel py_str_float
    (VInt initial) (VInt regular) s =
  let command :=
    ("@ " ++ str_int initial ++ ".0 " ++ str_int regular ++ ".0" ++ CRLF)%string in
  if (0 <? initial) && (0 <? regular) && negb ((9 <? initial) || (9 <? regular))
  then
    match recv wait_fuel (written command s) with
    | (Ok (Some l), s2) =>
        if valid_utf8 (slice_from 1 l) then
          if String.eqb (slice_from 1 l) command then (Ok 0, s2)
          else (Raise SprintIRR20_unexpected_reply, s2)
        else (Raise UnicodeDecodeError, s2)
    | (Ok None, s2) => (Raise TypeError, s2)
    | (Raise e, s2) => (Raise e, s2)
    | (OutOfFuel, s2) => (OutOfFuel, s2)
    end
  else (Ok (-1), s).
Proof.
  unfold setInitialAndIntervalAutoZeroing, written, py_str. mrun.
  destruct (Z.ltb_spec 0 initial) as [Hi | Hi]; cbn [negb andb];
    [| reflexivity].
  destruct (Z.ltb_spec 0 regular) as [Hr | Hr]; cbn [negb andb];
    [| reflexivity].
  rewrite (numberOfDigits_single initial Hi), (numberOfDigits_single regular Hr).
  destruct ((9 <? initial) || (9 <? regular)); cbn [negb]; [reflexivity |].
  destruct (recv wait_fuel _) as [[[l |] | e |] s2]; try reflexivity.
  unfold decode. destruct (valid_utf8 _); [| reflexivity].
  destruct (String.eqb _ _); reflexivity.
Qed.

(** X20.  [setInitialAndIntervalAutoZeroing] on two [int]s accepts exactly
    the pairs of single digits from 1 to 9: any other pair is turned down
    with [-1] and nothing is written; an accepted pair is written as
    [@ <initial>.0 <regular>.0]. *)
Theorem setInitialAndIntervalAutoZeroing_digits (initial regular : Z) (s : session) :
  let run := setInitialAndIntervalAutoZeroing wait_fuel py_str_float
               (VInt initial) (VInt regular) s in
  (~ (1 <= initial <= 9 /\ 1 <= regular <= 9) -> run = (Ok (-1), s)) /\
  (1 <= initial <= 9 -> 1 <= regular <= 9 ->
   fst run <> Ok (-1) /\
   tx (uart (snd run)) =
   tx (uart s) ++
   [("@ " ++ str_int initial ++ ".0 " ++ str_int regular ++ ".0" ++ CRLF)%string]).
Proof.
  cbn zeta. rewrite setInitialAndIntervalAutoZeroing_run. cbn zeta.
  match goal with
  | |- context [written ?cmd s] =>
      pose proof (written_frame wait_fuel cmd s) as [_ F]
  end.
  cbn zeta in F.
  destruct (Z.ltb_spec 0 initial); destruct (Z.ltb_spec 0 regular);
    destruct (Z.ltb_spec 9 initial); destruct (Z.ltb_spec 9 regular);
    cbn [andb orb negb];
    try (split; [reflexivity | intros; lia]).
  split; [intros; lia |]. intros _ _.
  destruct (recv wait_fuel _) as [[[l |] | e |] s2]; cbn [fst snd] in *;
    try (split; [discriminate | exact F]).
  destruct (valid_utf8 _); cbn [fst snd];
    [| split; [discriminate | exact F]].
  destruct (String.eqb _ _); cbn [fst snd];
    (split; [discriminate | exact F]).
Qed.

(** X21.  [zeroPointFreshAir], [zeroPointNitrogen] and
    [getAutoZeroingConfiguration] decode what the sensor answers but do
    not compare it with anything: with a positive integer timeout [t],
    when the first line comes within [16 * t] attempts, each returns 0
    after writing its command if what follows the line's first character
    is well-formed UTF-8, whatever it says, and raises
    [UnicodeDecodeError] if it is not. *)
Theorem zero_point_commands_decode_only (t : Z) (i : nat) (l : string)
    (s : session) :
  timeout s = VInt t -> 0 < t -> (i < Z.to_nat (16 * t))%nat ->
  first_line_at i l s ->
  let result :=
    if valid_utf8 (slice_from 1 l) then Ok 0 else Raise UnicodeDecodeError in
  zeroPointFreshAir wait_fuel s =
  (result, advance (S i) (written ("G" ++ CRLF) s)) /\
  zeroPointNitrogen wait_fuel s =
  (result, advance (S i) (written ("U" ++ CRLF) s)) /\
  getAutoZeroingConfiguration wait_fuel s =
  (result, advance (S i) (written ("@ " ++ CRLF) s)).
Proof.
  intros Ht Hpos Hi Hl.
  assert (R : forall cmd, recv wait_fuel (written cmd s) =
                          (Ok (Some l), advance (S i) (written cmd s))).
  { intros cmd. apply (recv_line wait_fuel t); assumption. }
  unfold zeroPointFreshAir, zeroPointNitrogen, getAutoZeroingConfiguration.
  cbn zeta. unfold decode_from, bind, uart_write.
  repeat split;
    match goal with
    | |- context [recv wait_fuel (set_uart s (uart_write_ ?c (uart s)))] =>
        change (set_uart s (uart_write_ c (uart s))) with (written c s);
        rewrite (R c)
    end; cbn [subscript_from]; unfold ret, lift, decode;
    destruct (valid_utf8 _); reflexivity.
Qed.

(** X22.  The two zero-point commands that carry a value differ in what
    they accept: for a positive [int] value and a scaling factor that is
    not zero, both send [value / scalingFactor] as a float and decode
    what follows the first character of the line that comes, raising
    [UnicodeDecodeError] if it is not well-formed UTF-8; on a decoded
    reply [zeroPointKnownGas] returns 0 whatever it says, while
    [zeroPointManualSetting] returns 0 only if it is the command and
    raises [SprintIRR20_unexpected_reply] otherwise. *)
Theorem zero_point_value_commands (v t : Z) (i : nat) (l : string) (s : session) :
  0 < v -> scalingFactor s <> 0 ->
  timeout s = VInt t -> 0 < t -> (i < Z.to_nat (16 * t))%nat ->
  first_line_at i l s ->
  let argument :=
    formatArgument5digits py_str_float
      (VFloat (inject_Z v / inject_Z (scalingFactor s))) in
  zeroPointKnownGas wait_fuel py_str_float (VInt v) s =
  (if valid_utf8 (slice_from 1 l) then Ok 0 else Raise UnicodeDecodeError,
   advance (S i) (written ("X " ++ argument ++ CRLF) s)) /\
  zeroPointManualSetting wait_fuel py_str_float (VInt v) s =
  (if valid_utf8 (slice_from 1 l)
   then if String.eqb (slice_from 1 l) ("u " ++ argument ++ CRLF) then Ok 0
        else Raise SprintIRR20_unexpected_reply
   else Raise UnicodeDecodeError,
   advance (S i) (written ("u " ++ argument ++ CRLF) s)).
Proof.
  intros Hv Hsf Ht Hpos Hi Hl argument.
  assert (R : forall cmd, recv wait_fuel (written cmd s) =
                          (Ok (Some l), advance (S i) (written cmd s))).
  { intros cmd. apply (recv_line wait_fuel t); assumption. }
  assert (E : (0 <? v) = true) by (apply Z.ltb_lt; exact Hv).
  split.
  - unfold zeroPointKnownGas. mrun. rewrite E. cbn [negb].
    rewrite float_div_nonzero by exact Hsf. fold argument.
    change (set_uart s (uart_write_ ("X " ++ argument ++ CRLF) (uart s)))
      with (written ("X " ++ argument ++ CRLF) s).
    rewrite R. unfold decode. destruct (valid_utf8 _); reflexivity.
  - unfold zeroPointManualSetting. mrun. rewrite E. cbn [negb].
    rewrite float_div_nonzero by exact Hsf. fold argument.
    change (set_uart s (uart_write_ ("u " ++ argument ++ CRLF) (uart s)))
      with (written ("u " ++ argument ++ CRLF) s).
    rewrite R. unfold decode. destruct (valid_utf8 _); [| reflexivity].
    destruct (String.eqb _ _); reflexivity.
Qed.

End Switches.

Lemma switchMode_modes_witness :
  fst (switchMode 0 str_of_integral_float (VInt 2)
         (session_with 1 8192 [reply "K 00002"])) = Ok 0 /\
  switchMode 0 str_of_integral_float (VInt 3) (session_with 1 8192 []) =
  (Ok (-1), session_with 1 8192 []).
Proof.
  split.
  - destruct (switchMode_modes 0 str_of_integral_float 2
                (session_with 1 8192 [reply "K 00002"])) as (_ & _ & H).
    rewrite H by lia. reflexivity.
  - destruct (switchMode_modes 0 str_of_integral_float 3
                (session_with 1 8192 [])) as (_ & H & _).
    apply H. lia.
Defined.

Lemma setInitialAndIntervalAutoZeroing_digits_witness :
  tx (uart (snd (setInitialAndIntervalAutoZeroing 0 str_of_integral_float
                   (VInt 1) (VInt 8) (session_with 1 8192 [reply "@ 1.0 8.0"]))))
  = [("@ 1.0 8.0" ++ CRLF)%string] /\
  setInitialAndIntervalAutoZeroing 0 str_of_integral_float (VInt 10) (VInt 8)
    (session_with 1 8192 []) = (Ok (-1), session_with 1 8192 []).
Proof.
  split.
  - destruct (setInitialAndIntervalAutoZeroing_digits 0 str_of_integral_float 1 8
                (session_with 1 8192 [reply "@ 1.0 8.0"])) as [_ H].
    destruct (H ltac:(lia) ltac:(lia)) as [_ H2]. rewrite H2. reflexivity.
  - destruct (setInitialAndIntervalAutoZeroing_digits 0 str_of_integral_float 10 8
                (session_with 1 8192 [])) as [H _].
    apply H. lia.
Defined.

Lemma zero_point_commands_decode_only_witness :
  fst (zeroPointNitrogen 0 (session_with 1 8192 [reply "G 32662"])) = Ok 0 /\
  fst (zeroPointFreshAir 0
         (session_with 1 8192
            [Some (String " "%char (String (ascii_of_nat 255) CRLF))])) =
  Raise UnicodeDecodeError.
Proof.
  split.
  - destruct (zero_point_commands_decode_only 0 1 0
                (String " "%char ("G 32662" ++ CRLF))
                (session_with 1 8192 [reply "G 32662"])
                eq_refl ltac:(lia) ltac:(vm_compute; lia)
                ltac:(split; [intros j Hj; lia | reflexivity]))
      as (_ & H & _).
    rewrite H. reflexivity.
  - destruct (zero_point_commands_decode_only 0 1 0
                (String " "%char (String (ascii_of_nat 255) CRLF))
                (session_with 1 8192
                   [Some (String " "%char (String (ascii_of_nat 255) CRLF))])
                eq_refl ltac:(lia) ltac:(vm_compute; lia)
                ltac:(split; [intros j Hj; lia | reflexivity]))
      as (H & _).
    rewrite H. reflexivity.
Defined.

Lemma zero_point_value_commands_witness :
  let s := session_with 1 8192 [reply "X 35548"] in
  fst (zeroPointKnownGas 0 str_of_integral_float (VInt 400) s) = Ok 0 /\
  fst (zeroPointManualSetting 0 str_of_integral_float (VInt 400) s) =
  Raise SprintIRR20_unexpected_reply.
Proof.
  intros s.
  destruct (zero_point_value_commands 0 str_of_integral_float 400 1 0
              (String " "%char ("X 35548" ++ CRLF)) s
              ltac:(lia) ltac:(vm_compute; discriminate) eq_refl ltac:(lia)
              ltac:(vm_compute; lia)
              ltac:(split; [intros j Hj; lia | reflexivity]))
    as [H1 H2].
  split; [rewrite H1 | rewrite H2]; reflexivity.
Defined.

(** ** The argument token on the wire *)

Section Tokens.

Variable wait_fuel : nat.
Variable py_str_float : Q -> string.

Abbreviation token := (formatArgument5digits py_str_float).







End Tokens.


(** ** What the receive loop leaves alone *)

(** X23.  Whatever the timeout and whatever comes of it, [UART_recv]
    writes nothing, changes no cached setting and never goes back on the
    line: the only thing that moves is the count of lines asked for. *)
Theorem UART_recv_only_reads (wait_fuel : nat) (t : pyval) (s : session) :
  let s' := snd (UART_recv wait_fuel t s) in
  tx (uart s') = tx (uart s) /\
  rx (uart s') = rx (uart s) /\
  (reads (uart s) <= reads (uart s'))%nat /\
  same_fields s s'.
Proof.
  cbn zeta. pose proof (UART_recv_frame wait_fuel t s) as F.
  unfold same_but_reads in F. unfold same_fields.
  destruct F as (F1 & F2 & F3 & F4 & F5 & F6 & F7 & F8).
  repeat split; assumption.
Qed.

(** ** Counting the digits of a float *)

Lemma Qfloor_tenth (q : Q) : Qfloor (q / 10) = Qfloor q / 10.
Proof.
  destruct q as [n d]. unfold Qfloor, Qdiv, Qmult, Qinv. cbn [Qnum Qden].
  rewrite Z.mul_1_r, Pos2Z.inj_mul, Z.div_div by lia. reflexivity.
Qed.

Lemma Qgtb_inject_Z (z : Z) : Qgtb (inject_Z z) 0 = (0 <? z).
Proof.
  unfold Qgtb. destruct (Z.ltb_spec 0 z) as [H | H].
  - destruct (Qle_bool (inject_Z z) 0) eqn:E; [| reflexivity].
    apply Qle_bool_iff in E. q2z_in E. lia.
  - assert (E : Qle_bool (inject_Z z) 0 = true)
      by (apply Qle_bool_iff; q2z; lia).
    rewrite E. reflexivity.
Qed.

Lemma Qgtb_floor (q : Q) : Qgtb q 0 = true -> 0 <= Qfloor q.
Proof.
  unfold Qgtb. intros H. destruct (Qle_bool q 0) eqn:E; [discriminate |].
  destruct q as [n d]. unfold Qfloor. apply Z.div_pos; [| lia].
  destruct (Z.lt_ge_cases n 0) as [Hn | Hn]; [| exact Hn].
  assert (Qle_bool (n # d) 0 = true) by (apply Qle_bool_iff; q2z; lia).
  congruence.
Qed.

(** On a float that is an integer the loop runs as on that integer. *)
Lemma count_digits_float_integral (fuel : nat) :
  forall z count,
    count_digits_float fuel (inject_Z z) count = count_digits fuel z count.
Proof.
  induction fuel as [| f IH]; intros z count; [reflexivity |].
  cbn [count_digits_float count_digits]. rewrite Qgtb_inject_Z.
  destruct (0 <? z); [| reflexivity].
  unfold float_floordiv. rewrite Qfloor_tenth, Qfloor_Z, IH. reflexivity.
Qed.

(** X24.  On a float [numberOfDigits] counts the digits of the integer
    part: it returns what it returns on the floor of its argument, so
    [400.0] has three digits and [0.5] has one. *)
Theorem numberOfDigits_float (q : Q) :
  numberOfDigits (VFloat q) = numberOfDigits (VInt (Qfloor q)).
Proof.
  unfold numberOfDigits.
  destruct (Qeq_bool q 0) eqn:E0.
  - apply Qeq_bool_iff in E0. rewrite (Qfloor_comp q 0 E0). reflexivity.
  - unfold loop_fuel. cbn [count_digits_float count_digits].
    destruct (Qgtb q 0) eqn:Eg.
    + pose proof (Qgtb_floor q Eg) as Hf.
      unfold float_floordiv. rewrite Qfloor_tenth, count_digits_float_integral.
      destruct (Z.eqb_spec (Qfloor q) 0) as [Hz | Hz].
      * rewrite Hz. change (0 / 10) with 0. apply count_digits_zero.
      * destruct (Z.ltb_spec 0 (Qfloor q)); [reflexivity | lia].
    + assert (Hneg : Qfloor q < 0).
      { destruct q as [n d]. unfold Qfloor.
        assert (Hn : n < 0).
        { destruct (Z.lt_ge_cases n 0) as [Hn | Hn]; [exact Hn | exfalso].
          unfold Qgtb in Eg. destruct (Qle_bool (n # d) 0) eqn:E; [| discriminate].
          apply Qle_bool_iff in E. q2z_in E.
          assert (n = 0) by lia. subst n.
          assert (Qeq_bool (0 # d) 0 = true) by (apply Qeq_bool_iff; q2z; lia).
          congruence. }
        apply Z.div_lt_upper_bound; lia. }
      destruct (Z.eqb_spec (Qfloor q) 0); [lia |].
      destruct (Z.ltb_spec 0 (Qfloor q)); [lia | reflexivity].
Qed.

(** ** What the getters read *)

Section Fields.

Variable wait_fuel : nat.
Variable py_int : string -> outcome Z.
Variable py_int_float : string -> outcome Z.

(** X25.  With a positive integer timeout [t] and a first line [l] within
    [16 * t] attempts, each getter returns what its conversion makes of
    the characters 3 to 7 of [l], and of nothing else in the line:
    [getDigitalFilter] and [getScalingFactorMultiplier] through [int], the
    two measurement reads through [int(float(...))]. *)
Theorem getters_read_field (t : Z) (i : nat) (l : string) (s : session) :
  timeout s = VInt t -> 0 < t -> (i < Z.to_nat (16 * t))%nat ->
  first_line_at i l s ->
  getDigitalFilter wait_fuel py_int s =
  (py_int (slice 3 8 l), advance (S i) (written ("a" ++ CRLF) s)) /\
  getScalingFactorMultiplier wait_fuel py_int s =
  (py_int (slice 3 8 l), advance (S i) (written ("." ++ CRLF) s)) /\
  getMostRecentFilteredCO2Measurement wait_fuel py_int_float s =
  (py_int_float (slice 3 8 l), advance (S i) (written ("Z" ++ CRLF) s)) /\
  getMostRecentUnfilteredCO2Measurement wait_fuel py_int_float s =
  (py_int_float (slice 3 8 l), advance (S i) (written ("z" ++ CRLF) s)).
Proof.
  intros Ht Hpos Hi Hl.
  assert (R : forall cmd, recv wait_fuel (written cmd s) =
                          (Ok (Some l), advance (S i) (written cmd s))).
  { intros cmd. apply (recv_line wait_fuel t); assumption. }
  unfold getDigitalFilter, getScalingFactorMultiplier,
    getMostRecentFilteredCO2Measurement, getMostRecentUnfilteredCO2Measurement.
  unfold bind, uart_write.
  repeat split;
    match goal with
    | |- context [recv wait_fuel (set_uart s (uart_write_ ?c (uart s)))] =>
        change (set_uart s (uart_write_ c (uart s))) with (written c s);
        rewrite (R c)
    end; reflexivity.
Qed.

End Fields.

Lemma getters_read_field_witness :
  fst (getDigitalFilter 0 int_of_field
         (session_with 1 8192 [Some " a 00016 and more"%string])) = Ok 16.
Proof.
  destruct (getters_read_field 0 int_of_field int_of_field 1 0
              " a 00016 and more"%string
              (session_with 1 8192 [Some " a 00016 and more"%string])
              eq_refl ltac:(lia) ltac:(vm_compute; lia)
              ltac:(split; [intros j Hj; lia | reflexivity]))
    as (H & _).
  rewrite H. reflexivity.
Defined.
